(** * Spatio-temporal pose graphs for isolated sign recognition

    A shallow embedding of [src/datasets/isr/pyg_dataloader_isr.py]
    (classes [ISRDataReader], [SpatioTemporalGraphBuilder] and
    [ISRDataLoader]) and the properties of the graph construction that
    the specification states about it.

    Conventions of the embedding:
    - Python integers are [Z]; tensor dimensions and list lengths are
      [nat] and enter the arithmetic through [Z.of_nat];
    - Python lists are [list]; insertion-ordered dictionaries are
      association lists with unique keys ([Dict]);
    - an exception is [None] in the [option] monad;
    - a [for] loop that appends to a list is a [flat_map]/[map] over the
      iterated range; a loop that writes into a dictionary is a left
      fold threading the dictionary;
    - pose tensors are nested lists (channel, frame, node) over an
      abstract element type: the code only moves the coordinates around,
      it never computes with them (the optional normalisation is a
      parameter). *)

From Stdlib Require Import String ZArith List Bool Arith Lia.
Import ListNotations.

Set Implicit Arguments.
Open Scope Z_scope.

(** ** Python primitives *)

Module Py.

Definition len {A : Type} (l : list A) : Z := Z.of_nat (length l).

(** [range(n)]: empty when [n <= 0]. *)
Definition range (n : Z) : list Z := map Z.of_nat (seq 0 (Z.to_nat n)).

(** [l[:k]]: a negative bound counts from the end, and every bound is
    clamped to [0 .. len l]. *)
Definition slice_to {A : Type} (k : Z) (l : list A) : list A :=
  if k <? 0 then firstn (Z.to_nat (len l + k)) l
  else firstn (Z.to_nat k) l.

(** [l[::step]] for a positive step: positions 0, step, 2*step, ... *)
Fixpoint stride_from {A : Type} (skip step : nat) (l : list A) : list A :=
  match l with
  | [] => []
  | a :: l' =>
      match skip with
      | O => a :: stride_from (pred step) step l'
      | S s => stride_from s step l'
      end
  end.

Definition slice_step {A : Type} (step : nat) (l : list A) : list A :=
  stride_from 0 step l.

(** [max] of a sequence: [ValueError] on the empty one. *)
Definition max (l : list Z) : option Z :=
  match l with
  | [] => None
  | a :: l' => Some (fold_left Z.max l' a)
  end.

End Py.

(** The error monad: [None] is a raised exception. *)
Definition bind {A B : Type} (m : option A) (k : A -> option B) : option B :=
  match m with
  | Some a => k a
  | None => None
  end.

Notation "x <- m ;; k" := (bind m (fun x => k))
  (at level 61, m at next level, right associativity).
Notation "' pat <- m ;; k" := (bind m (fun x => match x with pat => k end))
  (at level 61, pat pattern, m at next level, right associativity).

(** Insertion-ordered dictionaries with string keys. *)
Module Dict.

Definition t (V : Type) : Type := list (string * V).

Definition keys {V : Type} (d : t V) : list string := map fst d.
Definition values {V : Type} (d : t V) : list V := map snd d.

Fixpoint get {V : Type} (k : string) (d : t V) : option V :=
  match d with
  | [] => None
  | (k', v) :: d' => if String.eqb k k' then Some v else get k d'
  end.

(** [d[k] = v]: an existing key keeps its position, a new one goes last. *)
Fixpoint set {V : Type} (k : string) (v : V) (d : t V) : t V :=
  match d with
  | [] => [(k, v)]
  | (k', v') :: d' =>
      if String.eqb k k' then (k', v) :: d' else (k', v') :: set k v d'
  end.

(** [{k: v for k, v in d.items() if p(v)}] *)
Definition filter {V : Type} (p : V -> bool) (d : t V) : t V :=
  List.filter (fun kv => p (snd kv)) d.

End Dict.

(** ** Torch tensors of edges

    [torch.tensor(rows)] of a Python list of two-element rows has shape
    [(n, 2)] when the list has [n >= 1] rows, and shape [(0,)] (one
    dimension) when the list is empty.  Indexing with [[:k, :]] needs two
    dimensions: on the one-dimensional empty tensor it raises
    [IndexError]. *)

Inductive edge_tensor : Type :=
| Empty1D : edge_tensor
| Rows2D : list (Z * Z) -> edge_tensor.

Definition torch_tensor (rows : list (Z * Z)) : edge_tensor :=
  match rows with
  | [] => Empty1D
  | _ => Rows2D rows
  end.

Definition tensor_rows (t : edge_tensor) : list (Z * Z) :=
  match t with
  | Empty1D => []
  | Rows2D rows => rows
  end.

(** [t[:k, :]] *)
Definition slice_rows (k : Z) (t : edge_tensor) : option (list (Z * Z)) :=
  match t with
  | Empty1D => None
  | Rows2D rows => Some (Py.slice_to k rows)
  end.

(** [.t().contiguous()] of an [(n, 2)] tensor: the [(2, n)] edge index,
    one row of sources and one row of targets. *)
Definition t_contiguous (rows : list (Z * Z)) : list Z * list Z :=
  (map fst rows, map snd rows).

(** ** Dense tensors

    Two-dimensional tensors are lists of rows, three-dimensional ones
    lists of those.  Every tensor of the program is rectangular. *)

Definition tensor2 (A : Type) : Type := list (list A).
Definition tensor3 (A : Type) : Type := list (list (list A)).

(** Matrices of role features. *)
Definition matrix : Type := tensor2 Z.

Definition column {A : Type} (d : A) (j : nat) (m : tensor2 A) : list A :=
  map (fun row => nth j row d) m.

Definition nrows {A : Type} (m : tensor2 A) : nat := length m.
Definition ncols {A : Type} (m : tensor2 A) : nat := length (hd [] m).

(** [m.T]; [d] only fills in for the entries a ragged list would miss. *)
Definition transpose {A : Type} (d : A) (m : tensor2 A) : tensor2 A :=
  map (fun j => column d j m) (seq 0 (ncols m)).

(** [t.shape[1]] of a three-dimensional tensor. *)
Definition shape1 {A : Type} (t : tensor3 A) : nat := length (hd [] t).

(** A tensor of shape [(c, f, n)]. *)
Definition has_shape3 {A : Type} (c f n : nat) (t : tensor3 A) : Prop :=
  length t = c /\
  Forall (fun channel =>
            length channel = f /\ Forall (fun row => length row = n) channel) t.

(** A tensor of shape [(r, c)]. *)
Definition has_shape2 {A : Type} (r c : nat) (m : tensor2 A) : Prop :=
  length m = r /\ Forall (fun row => length row = c) m.

(** Traversal of a list in the error monad. *)
Fixpoint mapM {A B : Type} (f : A -> option B) (l : list A) : option (list B) :=
  match l with
  | [] => Some []
  | a :: l' =>
      b <- f a ;;
      bs <- mapM f l' ;;
      Some (b :: bs)
  end.

(** ** SpatioTemporalGraphBuilder *)

Module SpatioTemporalGraphBuilder.

(** Default holistic mediapipe edges. *)
Definition default_inward_edges : list (Z * Z) :=
  [ (2, 0); (1, 0); (0, 3); (0, 4); (3, 5); (4, 6); (5, 7); (6, 17);
    (7, 8); (7, 9); (9, 10); (7, 11); (11, 12); (7, 13); (13, 14);
    (7, 15); (15, 16); (17, 18); (17, 19); (19, 20); (17, 21); (21, 22);
    (17, 23); (23, 24); (17, 25); (25, 26) ].

(** The Python list [spatial_edges] of [_build_spatiotemporal_edges]. *)
Definition spatial_edge_list (max_n_frames N_NODES : Z)
    (inward_edges : list (Z * Z)) : list (Z * Z) :=
  flat_map
    (fun frame =>
       let frame_offset := frame * N_NODES in
       map (fun edge => (frame_offset + fst edge, frame_offset + snd edge))
           inward_edges)
    (Py.range max_n_frames).

(** The Python list [temporal_edges] of [_build_spatiotemporal_edges]. *)
Definition temporal_edge_list (max_n_frames N_NODES : Z) : list (Z * Z) :=
  flat_map
    (fun frame =>
       map (fun node =>
              (frame * N_NODES + node, (frame + 1) * N_NODES + node))
           (Py.range N_NODES))
    (Py.range (max_n_frames - 1)).

Definition _build_spatiotemporal_edges (max_n_frames N_NODES : Z)
    (inward_edges : list (Z * Z)) : edge_tensor * edge_tensor :=
  (torch_tensor (spatial_edge_list max_n_frames N_NODES inward_edges),
   torch_tensor (temporal_edge_list max_n_frames N_NODES)).

(** [np.eye(n)]; a negative dimension raises [ValueError]. *)
Definition eye (n : Z) : option matrix :=
  if n <? 0 then None
  else Some (map (fun i => map (fun j => if i =? j then 1 else 0)
                               (Py.range n))
                 (Py.range n)).

(** [np.tile(m, (1, reps))]: every row repeated [reps] times. *)
Definition tile_columns (reps : Z) (m : matrix) : matrix :=
  map (fun row => concat (repeat row (Z.to_nat reps))) m.

Definition _build_node_features (max_n_frames N_NODES : Z) : option matrix :=
  identity_matrix <- eye N_NODES ;;
  Some (tile_columns max_n_frames identity_matrix).

Record t : Type := {
  max_n_frames : Z;
  N_NODES : Z;
  tot_number_nodes : Z;
  inward_edges : list (Z * Z);
  n_spatial_edges : Z;
  n_temporal_edges : Z;
  spatial_edges : edge_tensor;
  temporal_edges : edge_tensor;
  landmark_features : matrix
}.

(** The body of [__init__] once [max_n_frames] is known. *)
Definition template (F N : Z) (inward : list (Z * Z)) : option t :=
  let '(sp, tp) := _build_spatiotemporal_edges F N inward in
  lf <- _build_node_features F N ;;
  Some {| max_n_frames := F;
          N_NODES := N;
          tot_number_nodes := F * N;
          inward_edges := inward;
          n_spatial_edges := Py.len inward;
          n_temporal_edges := N;
          spatial_edges := sp;
          temporal_edges := tp;
          landmark_features := lf |}.

(** [__init__]: [frame_counts] are the [node_pos.shape[1]] of the
    values of [data_dict], in order. *)
Definition init (frame_counts : list Z) (n_nodes : Z)
    (inward : option (list (Z * Z))) : option t :=
  F <- Py.max frame_counts ;;
  template F n_nodes
    (match inward with
     | None => default_inward_edges
     | Some e => e
     end).

(** [pos_data.reshape(pos_data.shape[0], -1)]: every channel is
    flattened in row-major order. *)
Definition reshape_nodes {A : Type} (pos_data : tensor3 A) : tensor2 A :=
  map (fun channel => concat channel) pos_data.

End SpatioTemporalGraphBuilder.

Module STGB := SpatioTemporalGraphBuilder.

(** ** ISRDataReader *)

(** One instance of the annotation file. *)
Record instance : Type := {
  video_id : string;
  instance_split : string;
  camera_view : Z
}.

(** One entry of the annotation file. *)
Record metadata_item : Type := {
  item_gloss : string;
  instances : list instance
}.

Record args : Type := {
  n_nodes : Z;
  scale_norm : bool;
  downsample : bool;
  temporal_configuration : string;
  batch_size : Z
}.

(** The values of [data_dict]. *)
Module VideoData.
Record t (A : Type) : Type := {
  label : Z;
  gloss : string;
  node_pos : tensor3 A;
  split : string;
  view : Z
}.
End VideoData.

(** The values of [graph_dict]. *)
Module GraphRecord.
Record t (A : Type) : Type := {
  label : Z;
  gloss : string;
  x : matrix;
  n_frames : Z;
  node_pos : tensor2 A;
  edges : list Z * list Z;
  split : string;
  view : Z
}.
End GraphRecord.

Module ISRDataReader.

(** Currently set at max of NGT200 dataset. *)
Definition max_frames : Z := 300.

(** One iteration of the loop of [_load_metadata]:
    [gloss_dict.setdefault(gloss, []).extend(...)]. *)
Definition extend_gloss (gloss_dict : Dict.t (list (string * string * Z)))
    (item : metadata_item) : Dict.t (list (string * string * Z)) :=
  let old := match Dict.get (item_gloss item) gloss_dict with
             | Some l => l
             | None => []
             end in
  Dict.set (item_gloss item)
    (old ++ map (fun i => (video_id i, instance_split i, camera_view i))
                (instances item))
    gloss_dict.

Definition _load_metadata (metadata : list metadata_item)
    : Dict.t (list (string * string * Z)) :=
  fold_left extend_gloss metadata [].

(** Indexes for reduction of graph nodes, predefined in the holistic
    mediapipe package. *)
Definition pose_indexes : list nat :=
  [0; 2; 5; 11; 12; 13; 14; 33; 37; 38; 41; 42; 45; 46; 49; 50; 53; 54;
   58; 59; 62; 63; 66; 67; 70; 71; 74]%nat.

Section Elements.

Variable A : Type.
(** Any coordinate value; it only fills in where a list is ragged. *)
Variable a0 : A.
(** [CenterAndScaleNormalize()] of [pose_transforms_new]. *)
Variable CenterAndScaleNormalize : tensor3 A -> tensor3 A.
(** The pickle files: [None] when [<vid_id>.pkl] does not exist,
    otherwise its ["keypoints"] array, (frames, landmarks, coords). *)
Variable store : string -> option (tensor3 A).

(** [kps[:, :, :2]] *)
Definition first_two_coords (kps : tensor3 A) : tensor3 A :=
  map (map (firstn 2)) kps.

(** [permute(2, 0, 1)] of a (frames, landmarks, 2) array. *)
Definition permute_2_0_1 (kps : tensor3 A) : tensor3 A :=
  map (fun c => map (map (fun landmark => nth c landmark a0)) kps)
      (seq 0 2).

(** [frames[:, :, pose_indexes]]; [IndexError] out of range. *)
Definition pose_select (frames : tensor3 A) : option (tensor3 A) :=
  mapM (mapM (fun row => mapM (nth_error row) pose_indexes)) frames.

(** [frames[:, ::downsample_rate, :]] *)
Definition downsample_frames (downsample_rate : nat) (frames : tensor3 A)
    : tensor3 A :=
  map (Py.slice_step downsample_rate) frames.

Definition _transform_data (a : args) (kps : tensor3 A)
    : option (tensor3 A) :=
  let frames := permute_2_0_1 kps in
  frames <- pose_select frames ;;
  let frames := if downsample a then downsample_frames 3 frames
                else frames in
  let frames := if scale_norm a then CenterAndScaleNormalize frames
                else frames in
  Some frames.

(** [{word: index for index, word in enumerate(gloss_dict.keys())}] *)
Definition enumerate_labels (glosses : list string) : Dict.t Z :=
  fold_left (fun labels iw => Dict.set (snd iw) (fst iw) labels)
            (combine (Py.range (Py.len glosses)) glosses) [].

(** The iteration space of the comprehension of [_load_pose_data]. *)
Definition listed_videos (gloss_dict : Dict.t (list (string * string * Z)))
    : list (string * (string * string * Z)) :=
  flat_map (fun gm => map (fun i => (fst gm, i)) (snd gm)) gloss_dict.

(** One step of the comprehension of [_load_pose_data]: the filter
    [os.path.exists(...)], then the value, then the insertion. *)
Definition load_entry (a : args) (labels : Dict.t Z)
    (acc : option (Dict.t (VideoData.t A)))
    (entry : string * (string * string * Z))
    : option (Dict.t (VideoData.t A)) :=
  let '(gloss, (vid_id, split, view)) := entry in
  data_dict <- acc ;;
  match store vid_id with
  | None => Some data_dict
  | Some keypoints =>
      label <- Dict.get gloss labels ;;
      node_pos <- _transform_data a (first_two_coords keypoints) ;;
      Some (Dict.set vid_id
              {| VideoData.label := label;
                 VideoData.gloss := gloss;
                 VideoData.node_pos := node_pos;
                 VideoData.split := split;
                 VideoData.view := view |}
              data_dict)
  end.

Definition _load_pose_data (a : args)
    (gloss_dict : Dict.t (list (string * string * Z)))
    : option (Dict.t (VideoData.t A)) :=
  let labels := enumerate_labels (Dict.keys gloss_dict) in
  fold_left (load_entry a labels) (listed_videos gloss_dict) (Some []).

(** The two edge slices of one iteration of
    [_build_spatio_temporal_graph]. *)
Definition slice_topology (gc : STGB.t) (n_frames : Z)
    : option ((list Z * list Z) * (list Z * list Z)) :=
  if n_frames <? max_frames then
    spatial_edges <-
      slice_rows (n_frames * STGB.n_spatial_edges gc)
                 (STGB.spatial_edges gc) ;;
    temporal_edges <-
      slice_rows ((n_frames - 1) * STGB.n_temporal_edges gc)
                 (STGB.temporal_edges gc) ;;
    Some (t_contiguous spatial_edges, t_contiguous temporal_edges)
  else
    spatial_edges <-
      slice_rows (max_frames * STGB.n_spatial_edges gc)
                 (STGB.spatial_edges gc) ;;
    temporal_edges <-
      slice_rows ((max_frames - 1) * STGB.n_temporal_edges gc)
                 (STGB.temporal_edges gc) ;;
    Some (t_contiguous spatial_edges, t_contiguous temporal_edges).

(** [landmark_features[:, :end_idx].T] *)
Definition slice_features (gc : STGB.t) (end_idx : Z) : matrix :=
  transpose 0 (map (Py.slice_to end_idx) (STGB.landmark_features gc)).

(** The body of the loop of [_build_spatio_temporal_graph]. *)
Definition assemble (N_NODES : Z) (gc : STGB.t) (data : VideoData.t A)
    : option (GraphRecord.t A) :=
  let n_frames := Z.of_nat (shape1 (VideoData.node_pos data)) in
  let end_idx := n_frames * N_NODES in
  '(spatial_edges, temporal_edges) <- slice_topology gc n_frames ;;
  let x := slice_features gc end_idx in
  let pos := STGB.reshape_nodes (VideoData.node_pos data) in
  Some {| GraphRecord.label := VideoData.label data;
          GraphRecord.gloss := VideoData.gloss data;
          GraphRecord.x := x;
          GraphRecord.n_frames :=
            Z.of_nat (shape1 (VideoData.node_pos data));
          GraphRecord.node_pos := pos;
          GraphRecord.edges := spatial_edges;
          GraphRecord.split := VideoData.split data;
          GraphRecord.view := VideoData.view data |}.

Definition frame_counts (data_dict : Dict.t (VideoData.t A)) : list Z :=
  map (fun data => Z.of_nat (shape1 (VideoData.node_pos data)))
      (Dict.values data_dict).

Definition _build_spatio_temporal_graph (a : args)
    (data_dict : Dict.t (VideoData.t A))
    : option (Dict.t (GraphRecord.t A)) :=
  graph_constructor <- STGB.init (frame_counts data_dict) (n_nodes a) None ;;
  fold_left
    (fun acc item =>
       graph_dict <- acc ;;
       record <- assemble (n_nodes a) graph_constructor (snd item) ;;
       Some (Dict.set (fst item) record graph_dict))
    data_dict (Some []).

(** [add_padding(x, pos_data)]: [F.pad(pos_data, (0, k), "constant", 0)]
    appends [k] zeros to every row, [F.pad(x, (0, 0, 0, k), "constant", 0)]
    appends [k] rows of zeros of the width of [x].  [zero] is the
    coordinate 0.  (A list of rows has no width once it is empty: the
    model of the padded [x] is that of the code for an [x] of at least
    one row.) *)
Definition add_padding (zero : A) (N_NODES : Z) (x : matrix)
    (pos_data : tensor2 A) : matrix * tensor2 A :=
  let nodes_to_add := max_frames * N_NODES - Z.of_nat (ncols pos_data) in
  if 0 <=? nodes_to_add then
    (x ++ repeat (repeat 0 (ncols x)) (Z.to_nat nodes_to_add),
     map (fun row => row ++ repeat zero (Z.to_nat nodes_to_add)) pos_data)
  else
    (Py.slice_to (max_frames * N_NODES) x,
     map (Py.slice_to (max_frames * N_NODES)) pos_data).

(** [__init__]: the reader's [data_dict] attribute. *)
Definition init (a : args) (metadata : list metadata_item)
    : option (Dict.t (GraphRecord.t A)) :=
  let gloss_dict := _load_metadata metadata in
  data_dict <- _load_pose_data a gloss_dict ;;
  _build_spatio_temporal_graph a data_dict.

End Elements.

End ISRDataReader.

(** ** ISRDataLoader *)

(** [torch_geometric.data.Data] as the loader fills it. *)
Module Data.
Record t (A : Type) : Type := {
  pos : tensor2 A;
  x : matrix;
  edge_index : list Z * list Z;
  y : Z;
  n_frames : Z;
  view : Z
}.
End Data.

(** [torch_geometric.loader.DataLoader]: what it was constructed from. *)
Module DataLoader.
Record t (A : Type) : Type := {
  dataset : list (Data.t A);
  batch_size : Z;
  shuffle : bool
}.
End DataLoader.

Module ISRDataLoader.

Section Elements.

Variable A : Type.
Variable a0 : A.

Definition graph_dict : Type := Dict.t (GraphRecord.t A).

Definition is_train (v : GraphRecord.t A) : bool :=
  String.eqb (GraphRecord.split v) "train".
Definition is_val (v : GraphRecord.t A) : bool :=
  String.eqb (GraphRecord.split v) "val".
Definition is_test_view (i : Z) (v : GraphRecord.t A) : bool :=
  String.eqb (GraphRecord.split v) "test" && (GraphRecord.view v =? i).

Definition _split_dataset (data_dict : graph_dict)
    : graph_dict * graph_dict * list graph_dict :=
  let train_data := Dict.filter is_train data_dict in
  let val_data := Dict.filter is_val data_dict in
  let test_data_v0 := Dict.filter (is_test_view 0) data_dict in
  let test_data_v1 := Dict.filter (is_test_view 1) data_dict in
  let test_data_v2 := Dict.filter (is_test_view 2) data_dict in
  let test_data := [test_data_v0; test_data_v1; test_data_v2] in
  (train_data, val_data, test_data).

(** The loader object: the attribute [edge_index] exists only once it
    has been assigned. *)
Record t : Type := {
  edge_index : option (list Z * list Z);
  train_loader : DataLoader.t A;
  val_loader : DataLoader.t A;
  test_loader : list (DataLoader.t A)
}.

(** One iteration of the loop of [_load_data]: the attribute
    [self.edge_index] is threaded through; reading it before any
    assignment raises [AttributeError]. *)
Definition load_item (a : args)
    (state : option (list Z * list Z) * list (Data.t A))
    (data : GraphRecord.t A)
    : option (option (list Z * list Z) * list (Data.t A)) :=
  let '(self_edge_index, data_list) := state in
  let pos := transpose a0 (GraphRecord.node_pos data) in
  let y := GraphRecord.label data in
  let x := GraphRecord.x data in
  let self_edge_index :=
    if String.eqb (temporal_configuration a) "spatio_temporal"
    then Some (GraphRecord.edges data)
    else self_edge_index in
  edge_index <- self_edge_index ;;
  Some (self_edge_index,
        data_list ++
          [ {| Data.pos := pos;
               Data.x := x;
               Data.edge_index := edge_index;
               Data.y := y;
               Data.n_frames := GraphRecord.n_frames data;
               Data.view := GraphRecord.view data |} ]).

(** [_load_data]: the new value of [self.edge_index] and the loader. *)
Definition _load_data (a : args) (self_edge_index : option (list Z * list Z))
    (data_dict : graph_dict) (shuffle : bool)
    : option (option (list Z * list Z) * DataLoader.t A) :=
  '(self_edge_index, data_list) <-
    fold_left (fun acc item => state <- acc ;; load_item a state (snd item))
              data_dict (Some (self_edge_index, [])) ;;
  Some (self_edge_index,
        {| DataLoader.dataset := data_list;
           DataLoader.batch_size := batch_size a;
           DataLoader.shuffle := shuffle |}).

Definition build_loaders (a : args)
    (self_edge_index : option (list Z * list Z)) (data_dict : graph_dict)
    : option t :=
  let '(train_data, val_data, test_data) := _split_dataset data_dict in
  '(e, train) <- _load_data a self_edge_index train_data true ;;
  '(e, val) <- _load_data a e val_data false ;;
  '(e, test0) <- _load_data a e (nth 0 test_data []) false ;;
  '(e, test1) <- _load_data a e (nth 0 test_data []) false ;;
  '(e, test2) <- _load_data a e (nth 0 test_data []) false ;;
  Some {| edge_index := e;
          train_loader := train;
          val_loader := val;
          test_loader := [test0; test1; test2] |}.

(** [__init__] *)
Definition init (a : args) (data_dict : graph_dict) : option t :=
  let self_edge_index :=
    if String.eqb (temporal_configuration a) "per_frame"
    then Some (t_contiguous STGB.default_inward_edges)
    else None in
  build_loaders a self_edge_index data_dict.

End Elements.

End ISRDataLoader.

(** ** Vocabulary of the specification *)

(** The one-hot vector of length [N] with a 1 at position [n]. *)
Definition one_hot (N n : Z) : list Z :=
  map (fun i => if i =? n then 1 else 0) (Py.range N).

(** The edges of a [(2, n)] edge index, as pairs. *)
Definition edge_pairs (e : list Z * list Z) : list (Z * Z) :=
  combine (fst e) (snd e).

Definition n_edges (e : list Z * list Z) : Z := Py.len (fst e).

(** A temporal edge joins a node to the same node of the next frame:
    its target is its source plus [N]. *)
Definition is_temporal_edge (N : Z) (e : Z * Z) : bool :=
  snd e =? fst e + N.

Definition n_temporal_edges_in (N : Z) (e : list Z * list Z) : Z :=
  Py.len (filter (is_temporal_edge N) (edge_pairs e)).

(** The frame count of a video of [data_dict]: [node_pos.shape[1]]. *)
Definition frame_count {A : Type} (data : VideoData.t A) : Z :=
  Z.of_nat (shape1 (VideoData.node_pos data)).

(** The frame count the edge slices use: capped at [max_frames]. *)
Definition frame_count_used {A : Type} (data : VideoData.t A) : Z :=
  Z.min (frame_count data) ISRDataReader.max_frames.

(** One iteration of a loop that stores a computed value per item of a
    dictionary, as in [_build_spatio_temporal_graph]. *)
Definition store_step {V W : Type} (f : V -> option W)
    (acc : option (Dict.t W)) (item : string * V) : option (Dict.t W) :=
  d <- acc ;;
  w <- f (snd item) ;;
  Some (Dict.set (fst item) w d).

(** The flattening the specification describes: shape [(frames, 2N)],
    one row per frame, the x and y of each node next to each other. *)
Definition flatten_frame_major {A : Type} (pos_data : tensor3 A) : tensor2 A :=
  map (fun xy => flat_map (fun p => [fst p; snd p])
                          (combine (fst xy) (snd xy)))
      (combine (nth 0 pos_data []) (nth 1 pos_data [])).

(** [count] consecutive blocks of length [n]. *)
Fixpoint chunks {A : Type} (n count : nat) (l : list A) : list (list A) :=
  match count with
  | O => []
  | S count' => firstn n l :: chunks n count' (skipn n l)
  end.

(** [m.reshape(m.shape[0], f, n)] of an [(c, f * n)] tensor. *)
Definition reshape_frames {A : Type} (f n : nat) (m : tensor2 A) : tensor3 A :=
  map (chunks n f) m.

(** The five partitions of [_split_dataset], in the order train, val,
    test view 0, test view 1, test view 2. *)
Definition partitions {A : Type} (data_dict : Dict.t (GraphRecord.t A))
    : list (Dict.t (GraphRecord.t A)) :=
  let '(train_data, val_data, test_data) :=
    ISRDataLoader._split_dataset data_dict in
  train_data :: val_data :: test_data.

(** The tests that select the five partitions, in the same order. *)
Definition partition_tests {A : Type} : list (GraphRecord.t A -> bool) :=
  [ @ISRDataLoader.is_train A; @ISRDataLoader.is_val A;
    @ISRDataLoader.is_test_view A 0; @ISRDataLoader.is_test_view A 1;
    @ISRDataLoader.is_test_view A 2 ].

(** In how many of the five partitions a record lands. *)
Definition n_partitions_of {A : Type} (v : GraphRecord.t A) : nat :=
  length (filter (fun p => p v) partition_tests).

(** The listed instances of the videos other than [vid]. *)
Definition other_video (vid : string) (i : string * string * Z) : bool :=
  negb (String.eqb (fst (fst i)) vid).

(** A dictionary with the same keys and every value mapped. *)
Definition map_values {V W : Type} (h : V -> W) (d : Dict.t V) : Dict.t W :=
  map (fun kv => (fst kv, h (snd kv))) d.

(** The annotation file without the instances of one video. *)
Definition drop_video (vid : string) (metadata : list metadata_item)
    : list metadata_item :=
  map (fun item =>
         {| item_gloss := item_gloss item;
            instances := filter (fun i => negb (String.eqb (video_id i) vid))
                                (instances item) |})
      metadata.

(** The listed instances of one gloss, over all entries of the
    annotation file, in their order. *)
Definition instances_of (g : string) (metadata : list metadata_item)
    : list (string * string * Z) :=
  flat_map
    (fun item =>
       if String.eqb (item_gloss item) g
       then map (fun i => (video_id i, instance_split i, camera_view i))
                (instances item)
       else [])
    metadata.

(** The distinct elements of a list, in the order of their first
    occurrence. *)
Definition first_seen (l : list string) : list string :=
  fold_left (fun seen g => if existsb (String.eqb g) seen then seen
                           else seen ++ [g])
            l [].


(** The graph object that [_load_data] builds for a record, given the
    edge index it attaches. *)
Definition graph_of {A : Type} (a0 : A) (edge_index : list Z * list Z)
    (data : GraphRecord.t A) : Data.t A :=
  {| Data.pos := transpose a0 (GraphRecord.node_pos data);
     Data.x := GraphRecord.x data;
     Data.edge_index := edge_index;
     Data.y := GraphRecord.label data;
     Data.n_frames := GraphRecord.n_frames data;
     Data.view := GraphRecord.view data |}.

(** The loader that [_load_data] builds from a list of graphs. *)
Definition loader_of {A : Type} (a : args) (shuffle : bool)
    (graphs : list (Data.t A)) : DataLoader.t A :=
  {| DataLoader.dataset := graphs;
     DataLoader.batch_size := batch_size a;
     DataLoader.shuffle := shuffle |}.

(** ** Concrete inputs *)

(** A pose of 3 frames and 2 nodes: x coordinates 11..16, y coordinates
    21..26. *)
Definition pose_2x3x2 : tensor3 Z :=
  [ [[11; 12]; [13; 14]; [15; 16]];
    [[21; 22]; [23; 24]; [25; 26]] ].

(** The arguments of the command line, [--n_nodes 27] and
    [--temporal_configuration spatio_temporal] being the defaults. *)
Definition args27 : args :=
  {| n_nodes := 27;
     scale_norm := false;
     downsample := false;
     temporal_configuration := "spatio_temporal";
     batch_size := 5 |}.

(** A reduced pose of [frames] frames and 27 nodes, all at the origin. *)
Definition still_pose (frames : nat) : tensor3 Z :=
  repeat (repeat (repeat 0 27%nat) frames) 2%nat.

Definition video (frames : nat) (label : Z) (split : string) (view : Z)
    : VideoData.t Z :=
  {| VideoData.label := label;
     VideoData.gloss := "gloss";
     VideoData.node_pos := still_pose frames;
     VideoData.split := split;
     VideoData.view := view |}.

(** Two videos, of 2 and of 4 frames. *)
Definition two_videos : Dict.t (VideoData.t Z) :=
  [ ("A"%string, video 2 0 "train" 0); ("B"%string, video 4 1 "train" 0) ].

(** A single video of one frame. *)
Definition one_frame_video : Dict.t (VideoData.t Z) :=
  [ ("A"%string, video 1 0 "train" 0) ].

(** A single video of 301 frames, one more than [max_frames]. *)
Definition long_video : Dict.t (VideoData.t Z) :=
  [ ("A"%string, video 301 0 "train" 0) ].

(** One video per partition, told apart by their labels 0 to 4. *)
Definition split_videos : Dict.t (VideoData.t Z) :=
  [ ("a"%string, video 2 0 "train" 0);
    ("b"%string, video 2 1 "val" 0);
    ("c"%string, video 2 2 "test" 0);
    ("d"%string, video 2 3 "test" 1);
    ("e"%string, video 2 4 "test" 2) ].

(** A keypoint file of 4 frames, 75 landmarks and 3 coordinates. *)
Definition raw_keypoints : tensor3 Z :=
  repeat (repeat [0; 0; 0] 75%nat) 4%nat.

(** A keypoint store that holds the video [v1] only. *)
Definition store_v1 (vid : string) : option (tensor3 Z) :=
  if String.eqb vid "v1" then Some raw_keypoints else None.

(** Annotations that list [v1] and [v2]. *)
Definition metadata_v1_v2 : list metadata_item :=
  [ {| item_gloss := "hello";
       instances :=
         [ {| video_id := "v1"; instance_split := "train"; camera_view := 0 |};
           {| video_id := "v2"; instance_split := "train"; camera_view := 0 |} ]
    |} ].

(** A video without any frame next to one of 4 frames. *)
Definition zero_and_four : Dict.t (VideoData.t Z) :=
  [ ("Z"%string, video 0 0 "train" 0); ("B"%string, video 4 1 "train" 0) ].

(** A graph record that only carries its labels. *)
Definition bare_record (label : Z) (split : string) (view : Z)
    : GraphRecord.t Z :=
  {| GraphRecord.label := label;
     GraphRecord.gloss := "gloss";
     GraphRecord.x := [[1]];
     GraphRecord.n_frames := 1;
     GraphRecord.node_pos := [[0]; [0]];
     GraphRecord.edges := ([0], [0]);
     GraphRecord.split := split;
     GraphRecord.view := view |}.

(** One bare record per partition. *)
Definition bare_records : Dict.t (GraphRecord.t Z) :=
  [ ("a"%string, bare_record 0 "train" 0);
    ("b"%string, bare_record 1 "val" 0);
    ("c"%string, bare_record 2 "test" 0);
    ("d"%string, bare_record 3 "test" 1);
    ("e"%string, bare_record 4 "test" 2) ].



(** Annotations of two glosses, the first one in two entries. *)
Definition metadata_two_glosses : list metadata_item :=
  [ {| item_gloss := "hello";
       instances :=
         [ {| video_id := "v1"; instance_split := "train"; camera_view := 0 |} ]
    |};
    {| item_gloss := "world";
       instances :=
         [ {| video_id := "v2"; instance_split := "val"; camera_view := 1 |} ]
    |};
    {| item_gloss := "hello";
       instances :=
         [ {| video_id := "v3"; instance_split := "test"; camera_view := 2 |} ]
    |} ].

(** Annotations that list the video [v1] twice, under two glosses. *)
Definition metadata_v1_twice : list metadata_item :=
  [ {| item_gloss := "hello";
       instances :=
         [ {| video_id := "v1"; instance_split := "train"; camera_view := 0 |} ]
    |};
    {| item_gloss := "world";
       instances :=
         [ {| video_id := "v1"; instance_split := "test"; camera_view := 2 |} ]
    |} ].

(** A keypoint store without any file. *)
Definition empty_store (vid : string) : option (tensor3 Z) := None.

(** * Properties *)

(** ** Lists, ranges and slices *)

Section ListFacts.

Variables A B : Type.

Lemma flat_map_nil_body (l : list A) :
  flat_map (fun _ => @nil B) l = [].
Proof. induction l; simpl; auto. Qed.

(** Blocks of a fixed length: a prefix of whole blocks is the flat map
    of a prefix. *)
Lemma firstn_flat_map_blocks (g : A -> list B) (c : nat) :
  (forall a, length (g a) = c) ->
  forall (l : list A) (n : nat),
    firstn (n * c) (flat_map g l) = flat_map g (firstn n l).
Proof.
  intros Hlen l; induction l as [|a l IH]; intros [|n]; simpl; auto.
  - now rewrite firstn_nil.
  - rewrite <- (Hlen a) at 1.
    rewrite firstn_app_2. now rewrite IH.
Qed.

Lemma length_flat_map_blocks (g : A -> list B) (c : nat) :
  (forall a, length (g a) = c) ->
  forall l : list A, length (flat_map g l) = (length l * c)%nat.
Proof.
  intros Hlen l; induction l as [|a l IH]; simpl; auto.
  now rewrite length_app, Hlen, IH.
Qed.

Lemma nth_concat_repeat (row : list A) (d : A) (reps k i : nat) :
  (k < reps)%nat -> (i < length row)%nat ->
  nth (k * length row + i) (concat (repeat row reps)) d = nth i row d.
Proof.
  revert k; induction reps as [|reps IH]; intros k Hk Hi; [lia|].
  simpl. destruct k as [|k]; simpl.
  - now rewrite app_nth1.
  - rewrite app_nth2 by lia.
    replace (length row + k * length row + i - length row)%nat
      with (k * length row + i)%nat by lia.
    apply IH; lia.
Qed.

Lemma length_concat_repeat (row : list A) (reps : nat) :
  length (concat (repeat row reps)) = (reps * length row)%nat.
Proof.
  induction reps as [|reps IH]; simpl; auto.
  now rewrite length_app, IH.
Qed.

End ListFacts.

Lemma firstn_seq_prefix (n len start : nat) :
  (n <= len)%nat -> firstn n (seq start len) = seq start n.
Proof.
  revert len start; induction n as [|n IH]; intros [|len] start H;
    simpl; auto; try lia.
  f_equal. apply IH. lia.
Qed.

Lemma range_length (n : Z) : length (Py.range n) = Z.to_nat n.
Proof. unfold Py.range. now rewrite length_map, length_seq. Qed.

Lemma range_nonpos (n : Z) : n <= 0 -> Py.range n = [].
Proof.
  intros H. unfold Py.range.
  replace (Z.to_nat n) with 0%nat by lia. reflexivity.
Qed.

Lemma range_prefix (f F : Z) :
  f <= F -> firstn (Z.to_nat f) (Py.range F) = Py.range f.
Proof.
  intros H. unfold Py.range.
  rewrite firstn_map, firstn_seq_prefix by lia. reflexivity.
Qed.

Lemma nth_range (n : Z) (i : nat) (d : Z) :
  (i < Z.to_nat n)%nat -> nth i (Py.range n) d = Z.of_nat i.
Proof.
  intros H. unfold Py.range.
  rewrite nth_indep with (d' := Z.of_nat 0)
    by now rewrite length_map, length_seq.
  rewrite map_nth, seq_nth by assumption. reflexivity.
Qed.

Lemma slice_to_nonneg (A : Type) (k : Z) (l : list A) :
  0 <= k -> Py.slice_to k l = firstn (Z.to_nat k) l.
Proof.
  intros H. unfold Py.slice_to.
  destruct (Z.ltb_spec k 0); [lia | reflexivity].
Qed.

Lemma slice_to_nil (A : Type) (k : Z) : Py.slice_to k (@nil A) = [].
Proof. unfold Py.slice_to. destruct (k <? 0); apply firstn_nil. Qed.

(** ** The topology template *)

Section Template.

Variable N : Z.
Variable inward : list (Z * Z).

Lemma spatial_edge_list_prefix (f F : Z) :
  0 <= f <= F ->
  Py.slice_to (f * Py.len inward) (STGB.spatial_edge_list F N inward)
  = STGB.spatial_edge_list f N inward.
Proof.
  intros H. unfold STGB.spatial_edge_list, Py.len.
  rewrite slice_to_nonneg by lia.
  replace (Z.to_nat (f * Z.of_nat (length inward)))
    with (Z.to_nat f * length inward)%nat by lia.
  rewrite firstn_flat_map_blocks
    by (intros; cbv zeta; now rewrite length_map).
  now rewrite range_prefix by lia.
Qed.

Lemma temporal_edge_list_prefix (f F : Z) :
  1 <= f <= F ->
  Py.slice_to ((f - 1) * N) (STGB.temporal_edge_list F N)
  = STGB.temporal_edge_list f N.
Proof.
  intros H. unfold STGB.temporal_edge_list.
  destruct (Z.le_gt_cases N 0) as [HN | HN].
  - rewrite (range_nonpos HN). simpl.
    rewrite !flat_map_nil_body. apply slice_to_nil.
  - rewrite slice_to_nonneg by nia.
    replace (Z.to_nat ((f - 1) * N))
      with (Z.to_nat (f - 1) * Z.to_nat N)%nat by nia.
    rewrite firstn_flat_map_blocks
      by (intros; now rewrite length_map, range_length).
    now rewrite range_prefix by lia.
Qed.

Lemma spatial_edge_list_length (F : Z) :
  Py.len (STGB.spatial_edge_list F N inward) = Z.max 0 F * Py.len inward.
Proof.
  unfold STGB.spatial_edge_list, Py.len.
  rewrite length_flat_map_blocks with (c := length inward)
    by (intros; cbv zeta; now rewrite length_map).
  rewrite range_length. lia.
Qed.

Lemma temporal_edge_list_length (F : Z) :
  Py.len (STGB.temporal_edge_list F N) = Z.max 0 (F - 1) * Z.max 0 N.
Proof.
  unfold STGB.temporal_edge_list, Py.len.
  rewrite length_flat_map_blocks with (c := Z.to_nat N)
    by (intros; now rewrite length_map, range_length).
  rewrite range_length. lia.
Qed.

End Template.

Lemma tensor_rows_torch_tensor (rows : list (Z * Z)) :
  tensor_rows (torch_tensor rows) = rows.
Proof. destruct rows; reflexivity. Qed.

Lemma template_some (F N : Z) (inward : list (Z * Z)) :
  0 <= N -> exists gc, STGB.template F N inward = Some gc.
Proof.
  intros HN. unfold STGB.template, STGB._build_spatiotemporal_edges,
    STGB._build_node_features, STGB.eye.
  destruct (Z.ltb_spec N 0); [lia|]. simpl. eauto.
Qed.

Lemma template_fields (F N : Z) (inward : list (Z * Z)) (gc : STGB.t) :
  STGB.template F N inward = Some gc ->
  0 <= N /\
  STGB.max_n_frames gc = F /\
  STGB.n_spatial_edges gc = Py.len inward /\
  STGB.n_temporal_edges gc = N /\
  STGB.spatial_edges gc = torch_tensor (STGB.spatial_edge_list F N inward) /\
  STGB.temporal_edges gc = torch_tensor (STGB.temporal_edge_list F N) /\
  STGB.landmark_features gc
  = map (fun i => concat (repeat (map (fun j => if i =? j then 1 else 0)
                                      (Py.range N))
                                 (Z.to_nat F)))
        (Py.range N).
Proof.
  unfold STGB.template, STGB._build_spatiotemporal_edges,
    STGB._build_node_features, STGB.eye, STGB.tile_columns.
  destruct (Z.ltb_spec N 0); simpl; [discriminate|].
  intros [= <-]. simpl. rewrite map_map. repeat split; auto.
Qed.

(** C1. Truncation-equivalence of the shared template: for every frame
    count [f] with [1 <= f <= F_max], the first [f * |inward_edges|] rows
    of the spatial edge tensor and the first [(f - 1) * N] rows of the
    temporal edge tensor of the template built for [F_max] frames are
    exactly the rows of the spatial and temporal edge tensors of the
    template built for [f] frames. *)
Theorem truncation_equivalence (F_max f N : Z) (inward : list (Z * Z))
    (big small : STGB.t) :
  1 <= f <= F_max ->
  STGB.template F_max N inward = Some big ->
  STGB.template f N inward = Some small ->
  Py.slice_to (f * STGB.n_spatial_edges big)
              (tensor_rows (STGB.spatial_edges big))
  = tensor_rows (STGB.spatial_edges small)
  /\
  Py.slice_to ((f - 1) * STGB.n_temporal_edges big)
              (tensor_rows (STGB.temporal_edges big))
  = tensor_rows (STGB.temporal_edges small).
Proof.
  intros Hf Hbig Hsmall.
  apply template_fields in Hbig as (_ & _ & -> & -> & -> & -> & _).
  apply template_fields in Hsmall as (_ & _ & _ & _ & -> & -> & _).
  rewrite !tensor_rows_torch_tensor. split.
  - apply spatial_edge_list_prefix; lia.
  - apply temporal_edge_list_prefix; lia.
Qed.

Lemma truncation_equivalence_witness :
  exists big small,
    STGB.template 4 3 [(1, 0); (2, 1)] = Some big /\
    STGB.template 2 3 [(1, 0); (2, 1)] = Some small /\
    Py.slice_to (2 * STGB.n_spatial_edges big)
                (tensor_rows (STGB.spatial_edges big))
    = tensor_rows (STGB.spatial_edges small) /\
    Py.slice_to ((2 - 1) * STGB.n_temporal_edges big)
                (tensor_rows (STGB.temporal_edges big))
    = tensor_rows (STGB.temporal_edges small).
Proof.
  eexists; eexists.
  split; [reflexivity|]. split; [reflexivity|].
  apply (@truncation_equivalence 4 2 3 [(1, 0); (2, 1)]);
    [lia | reflexivity | reflexivity].
Defined.

(** Two videos of 2 and 4 frames, 3 nodes and the inward edges
    [[1, 0], [2, 1]]: the template has 8 spatial and 9 temporal edges,
    the slices of the shorter video 4 and 3, those of the longer 8 and
    9. *)
Example scenario_edge_counts :
  exists gc sp tp,
    STGB.template 4 3 [(1, 0); (2, 1)] = Some gc
    /\ Py.len (tensor_rows (STGB.spatial_edges gc)) = 8
    /\ Py.len (tensor_rows (STGB.temporal_edges gc)) = 9
    /\ ISRDataReader.slice_topology gc 2
       = Some (t_contiguous [(1, 0); (2, 1); (4, 3); (5, 4)],
               t_contiguous [(0, 3); (1, 4); (2, 5)])
    /\ ISRDataReader.slice_topology gc 4 = Some (sp, tp)
    /\ n_edges sp = 8
    /\ n_edges tp = 9.
Proof.
  do 3 eexists. split; [reflexivity|].
  split; [reflexivity|]. split; [reflexivity|]. split; [reflexivity|].
  split; [vm_compute; reflexivity|]. split; reflexivity.
Qed.

(** ** Role features *)

Lemma nth_map_range (g : Z -> Z) (N : Z) (k : nat) :
  (k < Z.to_nat N)%nat -> nth k (map g (Py.range N)) 0 = g (Z.of_nat k).
Proof.
  intros H.
  rewrite nth_indep with (d' := g 0)
    by now rewrite length_map, range_length.
  now rewrite map_nth, nth_range.
Qed.

Lemma feature_column (F_max N j : Z) (landmark_features : matrix) :
  STGB._build_node_features F_max N = Some landmark_features ->
  0 <= j < F_max * N ->
  column 0 (Z.to_nat j) landmark_features = one_hot N (j mod N).
Proof.
  unfold STGB._build_node_features, STGB.eye, STGB.tile_columns.
  destruct (Z.ltb_spec N 0) as [|HN]; simpl; [discriminate|].
  intros [= <-] Hj.
  assert (HN' : 0 < N)
    by (destruct (Z.eq_dec N 0) as [-> | ?]; [rewrite Z.mul_0_r in Hj |]; lia).
  pose proof (Z.mod_pos_bound j N HN') as Hmod.
  pose proof (Z.div_mod j N ltac:(lia)) as Hdiv.
  assert (Hq : 0 <= j / N < F_max)
    by (split; [apply Z.div_pos; lia | apply Z.div_lt_upper_bound; lia]).
  unfold column, one_hot. rewrite !map_map.
  apply map_ext_in. intros i _.
  set (row := map (fun j => if i =? j then 1 else 0) (Py.range N)).
  assert (Hrow : length row = Z.to_nat N)
    by (unfold row; now rewrite length_map, range_length).
  replace (Z.to_nat j)
    with (Z.to_nat (j / N) * length row + Z.to_nat (j mod N))%nat by nia.
  rewrite nth_concat_repeat by lia.
  unfold row. rewrite nth_map_range by lia.
  now rewrite Z2Nat.id by lia.
Qed.

(** C6. In the built topology template, for every node index [n] in
    [0, N) and every frame index [f] in [0, F_max), the role-feature
    column of graph node [f * N + n] is the one-hot vector of length [N]
    with a 1 at position [n] and 0 elsewhere, whatever [f] is. *)
Theorem role_feature_one_hot (F_max N n f : Z) (landmark_features : matrix) :
  STGB._build_node_features F_max N = Some landmark_features ->
  0 <= n < N ->
  0 <= f < F_max ->
  column 0 (Z.to_nat (f * N + n)) landmark_features = one_hot N n.
Proof.
  intros Hb Hn Hf.
  rewrite (feature_column _ _ Hb) by nia.
  f_equal. rewrite Z.add_comm, Z.mod_add by lia. apply Z.mod_small; lia.
Qed.

Lemma role_feature_one_hot_witness :
  column 0 (Z.to_nat (2 * 3 + 1))
         (map (fun row => concat (repeat row 4))
              [[1; 0; 0]; [0; 1; 0]; [0; 0; 1]])
  = one_hot 3 1.
Proof.
  apply (@role_feature_one_hot 4 3 1 2); [reflexivity | lia | lia].
Defined.

(** ** Node positions *)

Section Reshape.

Variable A : Type.

Lemma chunks_concat (n : nat) (channel : list (list A)) :
  Forall (fun row => length row = n) channel ->
  chunks n (length channel) (concat channel) = channel.
Proof.
  induction 1 as [|row channel Hrow _ IH]; simpl; auto.
  assert (Hfirst : firstn n (row ++ concat channel) = row).
  { rewrite <- Hrow, firstn_app, firstn_all, Nat.sub_diag, firstn_O.
    apply app_nil_r. }
  assert (Hskip : skipn n (row ++ concat channel) = concat channel).
  { rewrite <- Hrow, skipn_app, skipn_all, Nat.sub_diag. reflexivity. }
  now rewrite Hfirst, Hskip, IH.
Qed.

Lemma length_concat_rows (n : nat) (channel : list (list A)) :
  Forall (fun row => length row = n) channel ->
  length (concat channel) = (length channel * n)%nat.
Proof.
  induction 1 as [|row channel Hrow _ IH]; simpl; auto.
  now rewrite length_app, IH, Hrow.
Qed.

Lemma nth_concat_rows (n : nat) (channel : list (list A)) (d : A) :
  Forall (fun row => length row = n) channel ->
  forall i k : nat,
    (i < length channel)%nat -> (k < n)%nat ->
    nth (i * n + k) (concat channel) d = nth k (nth i channel []) d.
Proof.
  induction 1 as [|row channel Hrow _ IH]; intros i k Hi Hk; simpl in *.
  - lia.
  - destruct i as [|i]; simpl.
    + apply app_nth1. lia.
    + rewrite app_nth2 by lia.
      replace (n + i * n + k - length row)%nat with (i * n + k)%nat by lia.
      apply IH; lia.
Qed.

Lemma reshape_nodes_shape (c f n : nat) (t : tensor3 A) :
  has_shape3 c f n t -> has_shape2 c (f * n) (STGB.reshape_nodes t).
Proof.
  intros [Hc Hall]. unfold STGB.reshape_nodes. split.
  - now rewrite length_map.
  - apply Forall_map. eapply Forall_impl; [|exact Hall].
    intros channel [Hf Hrows]. cbv beta.
    now rewrite (length_concat_rows Hrows), Hf.
Qed.

Lemma reshape_nodes_entry (c f n : nat) (t : tensor3 A) (d : A) :
  has_shape3 c f n t ->
  forall ch i k : nat,
    (ch < c)%nat -> (i < f)%nat -> (k < n)%nat ->
    nth (i * n + k) (nth ch (STGB.reshape_nodes t) []) d
    = nth k (nth i (nth ch t []) []) d.
Proof.
  intros [Hc Hall] ch i k Hch Hi Hk. unfold STGB.reshape_nodes.
  change (@nil A) with ((fun channel => concat channel) (@nil (list A))).
  rewrite map_nth.
  assert (Hin : In (nth ch t []) t) by (apply nth_In; lia).
  rewrite Forall_forall in Hall. destruct (Hall _ Hin) as [Hf Hrows].
  apply nth_concat_rows; auto. lia.
Qed.

Lemma reshape_nodes_round_trip (c f n : nat) (t : tensor3 A) :
  has_shape3 c f n t ->
  reshape_frames f n (STGB.reshape_nodes t) = t.
Proof.
  intros [_ Hall]. unfold reshape_frames, STGB.reshape_nodes.
  rewrite map_map. rewrite <- (map_id t) at 2.
  apply map_ext_in. intros channel Hin.
  rewrite Forall_forall in Hall. destruct (Hall _ Hin) as [<- Hrows].
  now apply chunks_concat.
Qed.

End Reshape.

(** C5, as the code has it.  [reshape_nodes] flattens a pose tensor of
    shape [(2, f, N)] into a node-position array of shape [(2, f * N)]:
    one row per coordinate channel, and in it the nodes frame after
    frame, in node-selection order within a frame.  The flattening
    round-trips: reshaping the result back to [(2, f, N)] recovers the
    original tensor. *)
Theorem reshape_nodes_channel_major (A : Type) (f N : nat) (t : tensor3 A) :
  has_shape3 2 f N t ->
  has_shape2 2 (f * N) (STGB.reshape_nodes t)
  /\ (forall (d : A) (channel frame node : nat),
        (channel < 2)%nat -> (frame < f)%nat -> (node < N)%nat ->
        nth (frame * N + node) (nth channel (STGB.reshape_nodes t) []) d
        = nth node (nth frame (nth channel t []) []) d)
  /\ reshape_frames f N (STGB.reshape_nodes t) = t.
Proof.
  intros H. split; [|split].
  - now apply reshape_nodes_shape.
  - intros d ch i k. now apply reshape_nodes_entry with (c := 2%nat) (f := f).
  - now apply reshape_nodes_round_trip with (c := 2%nat).
Qed.

Lemma pose_2x3x2_shape : has_shape3 2 3 2 pose_2x3x2.
Proof.
  split; [reflexivity|].
  repeat (constructor; [split; [reflexivity | repeat constructor] |]).
  constructor.
Defined.

Lemma reshape_nodes_channel_major_witness :
  has_shape2 2 (3 * 2) (STGB.reshape_nodes pose_2x3x2)
  /\ (forall (d : Z) (channel frame node : nat),
        (channel < 2)%nat -> (frame < 3)%nat -> (node < 2)%nat ->
        nth (frame * 2 + node) (nth channel (STGB.reshape_nodes pose_2x3x2) []) d
        = nth node (nth frame (nth channel pose_2x3x2 []) []) d)
  /\ reshape_frames 3 2 (STGB.reshape_nodes pose_2x3x2) = pose_2x3x2.
Proof.
  exact (@reshape_nodes_channel_major Z 3 2 pose_2x3x2 pose_2x3x2_shape).
Defined.

(** C5, as the specification words it, fails: on a pose of 3 frames and
    2 nodes the result of [reshape_nodes] has 2 rows of 6 entries, not 3
    rows of 4, and it is not the frame-major array with x and y
    interleaved. *)
Lemma reshape_nodes_not_frame_major :
  has_shape3 2 3 2 pose_2x3x2
  /\ STGB.reshape_nodes pose_2x3x2
     = [[11; 12; 13; 14; 15; 16]; [21; 22; 23; 24; 25; 26]]
  /\ flatten_frame_major pose_2x3x2
     = [[11; 21; 12; 22]; [13; 23; 14; 24]; [15; 25; 16; 26]]
  /\ ~ has_shape2 3 (2 * 2) (STGB.reshape_nodes pose_2x3x2)
  /\ STGB.reshape_nodes pose_2x3x2 <> flatten_frame_major pose_2x3x2.
Proof.
  split; [exact pose_2x3x2_shape|].
  split; [reflexivity|]. split; [reflexivity|]. split.
  - intros [Hrows _]. discriminate Hrows.
  - discriminate.
Qed.

(** ** Assembly of one video *)

Lemma torch_tensor_rows2d (rows : list (Z * Z)) :
  0 < Py.len rows -> torch_tensor rows = Rows2D rows.
Proof. destruct rows; simpl; [unfold Py.len; simpl; lia | reflexivity]. Qed.

Lemma max_upper_bound (l : list Z) (F x : Z) :
  Py.max l = Some F -> In x l -> x <= F.
Proof.
  destruct l as [|a l]; simpl; [discriminate|].
  intros [= <-]. revert a. induction l as [|b l IH]; simpl; intros a Hin.
  - destruct Hin as [-> | []]. lia.
  - assert (Hmono : forall c d, c <= d ->
              fold_left Z.max l c <= fold_left Z.max l d).
    { clear. induction l as [|e l IHl]; simpl; intros; [lia|].
      apply IHl. lia. }
    destruct Hin as [-> | [-> | Hin]].
    + etransitivity; [apply (IH x); now left|]. apply Hmono. lia.
    + etransitivity; [apply (IH x); now left|]. apply Hmono. lia.
    + etransitivity; [apply (IH a); now right|]. apply Hmono. lia.
Qed.

Lemma init_template (counts : list Z) (N : Z) (gc : STGB.t) :
  STGB.init counts N None = Some gc ->
  exists F, Py.max counts = Some F
            /\ STGB.template F N STGB.default_inward_edges = Some gc.
Proof.
  unfold STGB.init. destruct (Py.max counts) as [F|]; simpl; [|discriminate].
  eauto.
Qed.

Lemma frame_count_bounded (A : Type) (dd : Dict.t (VideoData.t A))
    (vid : string) (data : VideoData.t A) (F : Z) :
  Py.max (ISRDataReader.frame_counts dd) = Some F ->
  In (vid, data) dd ->
  Z.of_nat (shape1 (VideoData.node_pos data)) <= F.
Proof.
  intros Hmax Hin. eapply max_upper_bound; [exact Hmax|].
  unfold ISRDataReader.frame_counts, Dict.values. rewrite map_map.
  apply in_map_iff. now exists (vid, data).
Qed.

Section Slices.

Variables (F N : Z) (inward : list (Z * Z)) (gc : STGB.t).
Hypothesis Hgc : STGB.template F N inward = Some gc.
Hypothesis HN : 0 < N.

(** With at least two frames in the template and a non-empty edge set,
    both edge tensors are two-dimensional and both slices succeed. *)
Lemma slice_topology_some (n : Z) :
  2 <= F -> 0 < Py.len inward -> 1 <= n <= F ->
  ISRDataReader.slice_topology gc n
  = Some (t_contiguous
            (STGB.spatial_edge_list (Z.min n ISRDataReader.max_frames)
                                    N inward),
          t_contiguous
            (STGB.temporal_edge_list (Z.min n ISRDataReader.max_frames) N)).
Proof.
  intros HF HE Hn.
  destruct (template_fields _ _ _ Hgc) as (_ & _ & Hns & Hnt & Hsp & Htp & _).
  unfold ISRDataReader.slice_topology.
  rewrite Hns, Hnt, Hsp, Htp.
  rewrite !torch_tensor_rows2d
    by (rewrite ?spatial_edge_list_length, ?temporal_edge_list_length; nia).
  unfold ISRDataReader.max_frames in *. cbn [slice_rows bind].
  destruct (Z.ltb_spec n 300).
  - rewrite spatial_edge_list_prefix, temporal_edge_list_prefix by lia.
    now rewrite Z.min_l by lia.
  - rewrite spatial_edge_list_prefix, temporal_edge_list_prefix by lia.
    now rewrite Z.min_r by lia.
Qed.

Lemma landmark_features_rows :
  length (STGB.landmark_features gc) = Z.to_nat N
  /\ Forall (fun row => length row = Z.to_nat (F * N))
            (STGB.landmark_features gc).
Proof.
  destruct (template_fields _ _ _ Hgc) as (_ & _ & _ & _ & _ & _ & ->).
  split.
  - now rewrite length_map, range_length.
  - apply Forall_map, Forall_forall. intros i _.
    rewrite length_concat_repeat, length_map, range_length. nia.
Qed.

(** The feature slice is node-major: row [j] is the role of node [j]. *)
Lemma slice_features_rows (n : Z) :
  0 <= n <= F ->
  ISRDataReader.slice_features gc (n * N)
  = map (fun j => one_hot N (j mod N)) (Py.range (n * N)).
Proof.
  intros Hn.
  destruct landmark_features_rows as [Hlen Hrows].
  assert (Hb : STGB._build_node_features F N
               = Some (STGB.landmark_features gc)).
  { revert Hgc. unfold STGB.template. simpl.
    destruct (STGB._build_node_features F N); simpl; [|discriminate].
    now intros [= <-]. }
  unfold ISRDataReader.slice_features, transpose.
  assert (Hcols : ncols (map (Py.slice_to (n * N)) (STGB.landmark_features gc))
                  = Z.to_nat (n * N)).
  { unfold ncols. destruct (STGB.landmark_features gc) as [|row rows];
      simpl in *; [lia|].
    inversion Hrows as [|? ? Hrow _]; subst.
    rewrite slice_to_nonneg by nia. rewrite length_firstn, Hrow. nia. }
  rewrite Hcols. unfold Py.range. rewrite map_map.
  apply map_ext_in. intros j Hj. apply in_seq in Hj.
  rewrite <- (feature_column _ _ Hb) by nia.
  rewrite Nat2Z.id. unfold column. rewrite map_map.
  apply map_ext. intros row.
  rewrite slice_to_nonneg by nia. rewrite nth_firstn.
  destruct (Nat.ltb_spec j (Z.to_nat (n * N))); [reflexivity | lia].
Qed.

End Slices.

Lemma one_hot_length (N n : Z) : length (one_hot N n) = Z.to_nat N.
Proof. unfold one_hot. now rewrite length_map, range_length. Qed.

Lemma assemble_some (A : Type) (N : Z) (gc : STGB.t) (data : VideoData.t A)
    (sp tp : list Z * list Z) :
  ISRDataReader.slice_topology gc
    (Z.of_nat (shape1 (VideoData.node_pos data))) = Some (sp, tp) ->
  ISRDataReader.assemble N gc data
  = Some {| GraphRecord.label := VideoData.label data;
            GraphRecord.gloss := VideoData.gloss data;
            GraphRecord.x :=
              ISRDataReader.slice_features gc
                (Z.of_nat (shape1 (VideoData.node_pos data)) * N);
            GraphRecord.n_frames :=
              Z.of_nat (shape1 (VideoData.node_pos data));
            GraphRecord.node_pos :=
              STGB.reshape_nodes (VideoData.node_pos data);
            GraphRecord.edges := sp;
            GraphRecord.split := VideoData.split data;
            GraphRecord.view := VideoData.view data |}.
Proof. unfold ISRDataReader.assemble. now intros ->. Qed.

(** ** Dictionaries *)

Section DictFacts.

Variable V : Type.

Lemma dict_set_fresh (k : string) (v : V) (d : Dict.t V) :
  ~ In k (Dict.keys d) -> Dict.set k v d = d ++ [(k, v)].
Proof.
  induction d as [|[k' v'] d IH]; simpl; intros Hk; auto.
  destruct (String.eqb_spec k k') as [-> | _]; [tauto|].
  now rewrite IH by tauto.
Qed.

Lemma dict_keys_set (k k' : string) (v : V) (d : Dict.t V) :
  In k' (Dict.keys (Dict.set k v d)) <-> k' = k \/ In k' (Dict.keys d).
Proof.
  induction d as [|[k0 v0] d IH]; simpl.
  - intuition.
  - destruct (String.eqb_spec k k0) as [-> | Hne]; simpl.
    + intuition.
    + rewrite IH. intuition.
Qed.

Lemma dict_get_in (k : string) (v : V) (d : Dict.t V) :
  NoDup (Dict.keys d) -> In (k, v) d -> Dict.get k d = Some v.
Proof.
  induction d as [|[k' v'] d IH]; simpl; intros Hnd Hin; [tauto|].
  inversion Hnd as [|? ? Hfresh Hnd']; subst.
  destruct Hin as [[= -> ->] | Hin].
  - now rewrite String.eqb_refl.
  - destruct (String.eqb_spec k k') as [-> | _]; [|now apply IH].
    exfalso. apply Hfresh. apply in_map_iff. now exists (k', v).
Qed.

Lemma dict_get_set (k k' : string) (v : V) (d : Dict.t V) :
  Dict.get k (Dict.set k' v d)
  = if String.eqb k k' then Some v else Dict.get k d.
Proof.
  induction d as [|[k0 v0] d IH]; simpl.
  - destruct (String.eqb k k'); reflexivity.
  - destruct (String.eqb_spec k' k0) as [-> | Hne]; simpl.
    + destruct (String.eqb k k0); reflexivity.
    + rewrite IH. destruct (String.eqb_spec k k0) as [-> | _]; auto.
      destruct (String.eqb_spec k0 k') as [<- | _]; [tauto | reflexivity].
Qed.

Lemma dict_keys_filter (p : V -> bool) (k : string) (d : Dict.t V) :
  In k (Dict.keys (Dict.filter p d)) -> In k (Dict.keys d).
Proof.
  unfold Dict.keys, Dict.filter. rewrite !in_map_iff.
  intros [kv [<- Hin]]. apply filter_In in Hin. exists kv. tauto.
Qed.

End DictFacts.

(** A loop that stores one computed value per item of a dictionary. *)
Section DictLoop.

Variables V W : Type.
Variable f : V -> option W.

Let store_step := store_step f.

Lemma store_loop_none (l : Dict.t V) : fold_left store_step l None = None.
Proof. induction l; simpl; auto. Qed.

Lemma store_loop_keys (l : Dict.t V) :
  forall d0 d, fold_left store_step l (Some d0) = Some d ->
  forall k, In k (Dict.keys d) -> In k (Dict.keys d0) \/ In k (Dict.keys l).
Proof.
  induction l as [|[k0 v0] l IH]; simpl; intros d0 d Hfold k Hk.
  - injection Hfold as <-. now left.
  - destruct (f v0) as [w|]; simpl in Hfold;
      [|rewrite store_loop_none in Hfold; discriminate].
    destruct (IH _ _ Hfold k Hk) as [H | H]; [|now right; right].
    apply dict_keys_set in H. destruct H as [-> | H]; auto.
Qed.

Lemma store_loop_some (l : Dict.t V) :
  (forall k v, In (k, v) l -> exists w, f v = Some w) ->
  forall d0, NoDup (Dict.keys d0 ++ Dict.keys l) ->
  exists d,
    fold_left store_step l (Some d0) = Some (d0 ++ d)
    /\ Dict.keys d = Dict.keys l
    /\ (forall k v, In (k, v) l -> exists w, f v = Some w /\ In (k, w) d).
Proof.
  induction l as [|[k0 v0] l IH]; simpl; intros Hall d0 Hnd.
  - exists []. rewrite app_nil_r. repeat split; auto. intros ? ? [].
  - destruct (Hall k0 v0 (or_introl eq_refl)) as [w Hw].
    rewrite Hw. simpl.
    assert (Hfresh : ~ In k0 (Dict.keys d0)).
    { intros Hin. apply NoDup_remove_2 in Hnd. apply Hnd.
      apply in_or_app. now left. }
    rewrite dict_set_fresh by exact Hfresh.
    destruct (IH (fun k v H => Hall k v (or_intror H)) (d0 ++ [(k0, w)]))
      as (d & Hfold & Hkeys & Hrec).
    { unfold Dict.keys in *. rewrite map_app, <- app_assoc. exact Hnd. }
    exists ((k0, w) :: d). rewrite Hfold, <- app_assoc. simpl.
    split; [reflexivity|]. split; [now rewrite Hkeys|].
    intros k v [[= -> ->] | Hin].
    + exists w. auto.
    + destruct (Hrec k v Hin) as (w' & Hw' & Hin'). eauto.
Qed.

End DictLoop.

(** ** Assembly of the dataset *)

Section BuildGraph.

Variable A : Type.
Variable a : args.
Variable dd : Dict.t (VideoData.t A).
Variable F_max : Z.

Hypothesis Hkeys : NoDup (Dict.keys dd).
Hypothesis HN : 0 < n_nodes a.
Hypothesis Hmax : Py.max (ISRDataReader.frame_counts dd) = Some F_max.

Lemma build_graph_loop (gc : STGB.t) :
  STGB.init (ISRDataReader.frame_counts dd) (n_nodes a) None = Some gc ->
  ISRDataReader._build_spatio_temporal_graph a dd
  = fold_left (store_step (ISRDataReader.assemble (n_nodes a) gc)) dd (Some []).
Proof.
  intros H. unfold ISRDataReader._build_spatio_temporal_graph.
  rewrite H. reflexivity.
Qed.

Lemma init_some :
  exists gc,
    STGB.init (ISRDataReader.frame_counts dd) (n_nodes a) None = Some gc
    /\ STGB.template F_max (n_nodes a) STGB.default_inward_edges = Some gc.
Proof.
  destruct (@template_some F_max (n_nodes a) STGB.default_inward_edges)
    as [gc Hgc]; [lia|].
  exists gc. split; [|exact Hgc].
  unfold STGB.init. rewrite Hmax. exact Hgc.
Qed.

(** Once the longest video has two frames, both edge tensors of the
    template are two-dimensional and every slice succeeds. *)
Lemma slice_topology_total (gc : STGB.t) (n : Z) :
  STGB.template F_max (n_nodes a) STGB.default_inward_edges = Some gc ->
  2 <= F_max ->
  exists sp tp, ISRDataReader.slice_topology gc n = Some (sp, tp).
Proof.
  intros Hgc HF.
  destruct (template_fields _ _ _ Hgc) as (_ & _ & Hns & Hnt & Hsp & Htp & _).
  unfold ISRDataReader.slice_topology. rewrite Hsp, Htp.
  rewrite !torch_tensor_rows2d
    by (rewrite ?spatial_edge_list_length, ?temporal_edge_list_length;
        unfold Py.len; simpl; nia).
  cbn [slice_rows bind].
  destruct (n <? ISRDataReader.max_frames); eauto.
Qed.

Lemma build_graph_some :
  2 <= F_max ->
  exists gc gd,
    STGB.init (ISRDataReader.frame_counts dd) (n_nodes a) None = Some gc
    /\ STGB.template F_max (n_nodes a) STGB.default_inward_edges = Some gc
    /\ ISRDataReader._build_spatio_temporal_graph a dd = Some gd
    /\ Dict.keys gd = Dict.keys dd
    /\ (forall vid data,
          In (vid, data) dd ->
          exists r, ISRDataReader.assemble (n_nodes a) gc data = Some r
                    /\ Dict.get vid gd = Some r).
Proof.
  intros HF. destruct init_some as (gc & Hinit & Hgc).
  destruct (@store_loop_some _ _ (ISRDataReader.assemble (n_nodes a) gc) dd)
    with (d0 := @nil (string * GraphRecord.t A))
    as (gd & Hfold & Hk & Hrec).
  - intros vid data _.
    destruct (slice_topology_total (frame_count data) Hgc HF)
      as (sp & tp & Hs).
    eexists. eapply assemble_some. exact Hs.
  - exact Hkeys.
  - exists gc, gd. rewrite (build_graph_loop Hinit).
    repeat split; auto.
    intros vid data Hin. destruct (Hrec vid data Hin) as (r & Hr & Hinr).
    exists r. split; [exact Hr|].
    apply dict_get_in; [now rewrite Hk | exact Hinr].
Qed.

End BuildGraph.

(** What assembly stores for a video with at least one frame, in a
    dataset whose longest video has at least two. *)
Lemma assembled_record (A : Type) (a : args) (dd : Dict.t (VideoData.t A))
    (F_max : Z) (vid : string) (data : VideoData.t A) :
  NoDup (Dict.keys dd) ->
  0 < n_nodes a ->
  Py.max (ISRDataReader.frame_counts dd) = Some F_max ->
  2 <= F_max ->
  In (vid, data) dd ->
  1 <= frame_count data ->
  exists gc gd r,
    STGB.init (ISRDataReader.frame_counts dd) (n_nodes a) None = Some gc
    /\ ISRDataReader._build_spatio_temporal_graph a dd = Some gd
    /\ Dict.get vid gd = Some r
    /\ ISRDataReader.slice_topology gc (frame_count data)
       = Some (t_contiguous
                 (STGB.spatial_edge_list (frame_count_used data) (n_nodes a)
                                         STGB.default_inward_edges),
               t_contiguous
                 (STGB.temporal_edge_list (frame_count_used data) (n_nodes a)))
    /\ GraphRecord.edges r
       = t_contiguous
           (STGB.spatial_edge_list (frame_count_used data) (n_nodes a)
                                   STGB.default_inward_edges)
    /\ GraphRecord.x r
       = map (fun j => one_hot (n_nodes a) (j mod n_nodes a))
             (Py.range (frame_count data * n_nodes a))
    /\ GraphRecord.n_frames r = frame_count data.
Proof.
  intros Hkeys HN Hmax HF Hin Hn.
  destruct (@build_graph_some _ a dd F_max Hkeys HN Hmax HF)
    as (gc & gd & Hinit & Hgc & Hbuild & _ & Hrec).
  destruct (Hrec vid data Hin) as (r & Hr & Hget).
  exists gc, gd, r. do 3 (split; [assumption|]).
  pose proof (frame_count_bounded _ _ _ Hmax Hin) as Hle.
  fold (frame_count data) in Hle.
  assert (Hslice := @slice_topology_some _ _ _ _ Hgc HN (frame_count data) HF
                      ltac:(reflexivity) ltac:(lia)).
  split; [exact Hslice|].
  rewrite (assemble_some _ _ _ Hslice) in Hr. injection Hr as <-.
  cbn [GraphRecord.edges GraphRecord.x GraphRecord.n_frames].
  fold (frame_count data).
  rewrite (@slice_features_rows _ _ _ _ Hgc HN) by lia.
  repeat split.
Qed.

Lemma role_rows_shape (N k : Z) :
  has_shape2 (Z.to_nat k) (Z.to_nat N)
             (map (fun j => one_hot N (j mod N)) (Py.range k)).
Proof.
  split.
  - now rewrite length_map, range_length.
  - apply Forall_map, Forall_forall. intros j _. apply one_hot_length.
Qed.

Lemma n_edges_spatial (f N : Z) (inward : list (Z * Z)) :
  n_edges (t_contiguous (STGB.spatial_edge_list f N inward))
  = Z.max 0 f * Py.len inward.
Proof.
  unfold n_edges, t_contiguous, Py.len. cbn [fst]. rewrite length_map.
  apply spatial_edge_list_length.
Qed.

Lemma n_edges_temporal (f N : Z) :
  n_edges (t_contiguous (STGB.temporal_edge_list f N))
  = Z.max 0 (f - 1) * Z.max 0 N.
Proof.
  unfold n_edges, t_contiguous, Py.len. cbn [fst]. rewrite length_map.
  apply temporal_edge_list_length.
Qed.

Lemma max_some (l : list Z) (x : Z) : In x l -> exists F, Py.max l = Some F.
Proof. destruct l; simpl; [tauto | eauto]. Qed.

Lemma frame_count_video (frames : nat) (label : Z) (split : string) (view : Z) :
  frame_count (video frames label split view) = Z.of_nat frames.
Proof.
  unfold frame_count, video, still_pose, shape1. cbn.
  now rewrite repeat_length.
Qed.

(** C4, as the code has it.  In a dataset whose longest video has at
    least two frames, for every video with at least one frame, assembly
    truncates the spatial and the temporal edge list to
    [f = min(video_frame_count, max_frames)] frames, and slices the node
    role features with the uncapped frame count [n]: the features are
    node-major of shape [(n * N, N)], row [j] being the one-hot role of
    node [j mod N]; so for a video longer than the cap the feature
    matrix has more than [max_frames * N] rows. *)
Theorem assembly_truncation (A : Type) (a : args) (dd : Dict.t (VideoData.t A))
    (F_max : Z) (vid : string) (data : VideoData.t A) :
  NoDup (Dict.keys dd) ->
  0 < n_nodes a ->
  Py.max (ISRDataReader.frame_counts dd) = Some F_max ->
  2 <= F_max ->
  In (vid, data) dd ->
  1 <= frame_count data ->
  exists gc gd r,
    STGB.init (ISRDataReader.frame_counts dd) (n_nodes a) None = Some gc
    /\ ISRDataReader._build_spatio_temporal_graph a dd = Some gd
    /\ Dict.get vid gd = Some r
    /\ ISRDataReader.slice_topology gc (frame_count data)
       = Some (t_contiguous
                 (STGB.spatial_edge_list (frame_count_used data) (n_nodes a)
                                         STGB.default_inward_edges),
               t_contiguous
                 (STGB.temporal_edge_list (frame_count_used data) (n_nodes a)))
    /\ GraphRecord.edges r
       = t_contiguous
           (STGB.spatial_edge_list (frame_count_used data) (n_nodes a)
                                   STGB.default_inward_edges)
    /\ GraphRecord.x r
       = map (fun j => one_hot (n_nodes a) (j mod n_nodes a))
             (Py.range (frame_count data * n_nodes a))
    /\ has_shape2 (Z.to_nat (frame_count data * n_nodes a))
                  (Z.to_nat (n_nodes a)) (GraphRecord.x r)
    /\ (ISRDataReader.max_frames < frame_count data ->
        ISRDataReader.max_frames * n_nodes a
        < Z.of_nat (nrows (GraphRecord.x r))).
Proof.
  intros Hkeys HN Hmax HF Hin Hn.
  destruct (@assembled_record _ a dd F_max vid data Hkeys HN Hmax HF Hin Hn)
    as (gc & gd & r & Hinit & Hbuild & Hget & Hslice & Hedges & Hx & _).
  exists gc, gd, r. do 6 (split; [assumption|]).
  rewrite Hx. split; [apply role_rows_shape|].
  intros Hlong. unfold nrows, ISRDataReader.max_frames in *.
  rewrite length_map, range_length. nia.
Qed.

Lemma assembly_truncation_witness :
  ISRDataReader.max_frames < frame_count (video 301 0 "train" 0)
  /\ exists gc gd r,
      STGB.init (ISRDataReader.frame_counts long_video) (n_nodes args27) None
      = Some gc
      /\ ISRDataReader._build_spatio_temporal_graph args27 long_video = Some gd
      /\ Dict.get "A" gd = Some r
      /\ ISRDataReader.slice_topology gc (frame_count (video 301 0 "train" 0))
         = Some (t_contiguous
                   (STGB.spatial_edge_list
                      (frame_count_used (video 301 0 "train" 0))
                      (n_nodes args27) STGB.default_inward_edges),
                 t_contiguous
                   (STGB.temporal_edge_list
                      (frame_count_used (video 301 0 "train" 0))
                      (n_nodes args27)))
      /\ GraphRecord.edges r
         = t_contiguous
             (STGB.spatial_edge_list
                (frame_count_used (video 301 0 "train" 0)) (n_nodes args27)
                STGB.default_inward_edges)
      /\ GraphRecord.x r
         = map (fun j => one_hot (n_nodes args27) (j mod n_nodes args27))
               (Py.range (frame_count (video 301 0 "train" 0)
                          * n_nodes args27))
      /\ has_shape2
           (Z.to_nat (frame_count (video 301 0 "train" 0) * n_nodes args27))
           (Z.to_nat (n_nodes args27)) (GraphRecord.x r)
      /\ ISRDataReader.max_frames * n_nodes args27
         < Z.of_nat (nrows (GraphRecord.x r)).
Proof.
  assert (Hlong : ISRDataReader.max_frames
                  < frame_count (video 301 0 "train" 0))
    by (vm_compute; reflexivity).
  split; [exact Hlong|].
  destruct (@assembly_truncation Z args27 long_video 301 "A"%string
              (video 301 0 "train" 0))
    as (gc & gd & r & H1 & H2 & H3 & H4 & H5 & H6 & H7 & H8).
  - repeat constructor; simpl; intuition discriminate.
  - reflexivity.
  - vm_compute. reflexivity.
  - lia.
  - left. reflexivity.
  - vm_compute. discriminate.
  - exists gc, gd, r. repeat (split; [assumption|]). exact (H8 Hlong).
Defined.

(** C4, as the specification words it, fails: for a video of 301 frames
    the features are sliced to 301 frames, not to the cap of 300, so the
    feature matrix has [301 * 27] rows and not [300 * 27], while the
    edges are those of 300 frames. *)
Lemma features_not_capped :
  exists gd r,
    ISRDataReader._build_spatio_temporal_graph args27 long_video = Some gd
    /\ Dict.get "A" gd = Some r
    /\ frame_count_used (video 301 0 "train" 0) = ISRDataReader.max_frames
    /\ n_edges (GraphRecord.edges r) = ISRDataReader.max_frames * 26
    /\ Z.of_nat (nrows (GraphRecord.x r)) = 301 * 27
    /\ Z.of_nat (nrows (GraphRecord.x r)) <> ISRDataReader.max_frames * 27.
Proof.
  destruct (@assembled_record Z args27 long_video 301 "A"%string
              (video 301 0 "train" 0))
    as (gc & gd & r & _ & Hbuild & Hget & _ & Hedges & Hx & _).
  - repeat constructor; simpl; intuition discriminate.
  - reflexivity.
  - unfold long_video, ISRDataReader.frame_counts. cbn [Dict.values map snd].
    fold (frame_count (video 301 0 "train" 0)).
    now rewrite frame_count_video.
  - lia.
  - left. reflexivity.
  - rewrite frame_count_video. lia.
  - exists gd, r. do 2 (split; [assumption|]).
    assert (Hused : frame_count_used (video 301 0 "train" 0) = 300)
      by (unfold frame_count_used; rewrite frame_count_video; reflexivity).
    rewrite Hedges, Hx, Hused, n_edges_spatial, frame_count_video.
    unfold nrows. rewrite length_map, range_length.
    unfold ISRDataReader.max_frames.
    repeat split; try reflexivity; cbn; lia.
Qed.

Lemma assemble_n_frames (A : Type) (N : Z) (gc : STGB.t)
    (data : VideoData.t A) (r : GraphRecord.t A) :
  ISRDataReader.assemble N gc data = Some r ->
  GraphRecord.n_frames r = frame_count data.
Proof.
  unfold ISRDataReader.assemble.
  destruct (ISRDataReader.slice_topology _ _) as [[sp tp]|]; cbn [bind];
    [|discriminate].
  now intros [= <-].
Qed.

(** C10. For every assembled graph record, [n_frames] stores the frame
    count of the video's reduced pose, without the cap of 300 frames;
    so for a video longer than the cap, whose record is assembled with
    the spatial edge list of exactly [max_frames] frames, [n_frames] is
    strictly greater than the number of frames in the edge list. *)
Theorem n_frames_not_capped (A : Type) (a : args) (dd : Dict.t (VideoData.t A))
    (vid : string) (data : VideoData.t A) :
  NoDup (Dict.keys dd) ->
  0 < n_nodes a ->
  In (vid, data) dd ->
  (forall gc r,
      ISRDataReader.assemble (n_nodes a) gc data = Some r ->
      GraphRecord.n_frames r = frame_count data)
  /\ (ISRDataReader.max_frames < frame_count data ->
      exists gd r,
        ISRDataReader._build_spatio_temporal_graph a dd = Some gd
        /\ Dict.get vid gd = Some r
        /\ GraphRecord.n_frames r = frame_count data
        /\ GraphRecord.edges r
           = t_contiguous
               (STGB.spatial_edge_list ISRDataReader.max_frames (n_nodes a)
                                       STGB.default_inward_edges)
        /\ n_edges (GraphRecord.edges r)
           = ISRDataReader.max_frames * Py.len STGB.default_inward_edges
        /\ ISRDataReader.max_frames < GraphRecord.n_frames r).
Proof.
  intros Hkeys HN Hin. split; [intros gc r; apply assemble_n_frames|].
  intros Hlong.
  assert (Hcount : In (frame_count data) (ISRDataReader.frame_counts dd)).
  { unfold ISRDataReader.frame_counts, Dict.values. rewrite map_map.
    apply in_map_iff. now exists (vid, data). }
  destruct (max_some _ _ Hcount) as [F_max Hmax].
  pose proof (max_upper_bound _ _ Hmax Hcount) as Hle.
  unfold ISRDataReader.max_frames in *.
  destruct (@assembled_record _ a dd F_max vid data Hkeys HN Hmax
              ltac:(lia) Hin ltac:(lia))
    as (gc & gd & r & _ & Hbuild & Hget & _ & Hedges & _ & Hn).
  exists gd, r. do 3 (split; [assumption|]).
  assert (Hused : frame_count_used data = 300)
    by (unfold frame_count_used, ISRDataReader.max_frames; lia).
  rewrite Hused in Hedges. rewrite Hedges, Hn, n_edges_spatial.
  repeat split; lia.
Qed.

Lemma n_frames_not_capped_witness :
  ISRDataReader.max_frames < frame_count (video 301 0 "train" 0)
  /\ (forall gc r,
        ISRDataReader.assemble (n_nodes args27) gc (video 301 0 "train" 0)
        = Some r ->
        GraphRecord.n_frames r = frame_count (video 301 0 "train" 0))
  /\ (exists gd r,
        ISRDataReader._build_spatio_temporal_graph args27 long_video = Some gd
        /\ Dict.get "A" gd = Some r
        /\ GraphRecord.n_frames r = frame_count (video 301 0 "train" 0)
        /\ GraphRecord.edges r
           = t_contiguous
               (STGB.spatial_edge_list ISRDataReader.max_frames
                                       (n_nodes args27)
                                       STGB.default_inward_edges)
        /\ n_edges (GraphRecord.edges r)
           = ISRDataReader.max_frames * Py.len STGB.default_inward_edges
        /\ ISRDataReader.max_frames < GraphRecord.n_frames r).
Proof.
  assert (Hlong : ISRDataReader.max_frames
                  < frame_count (video 301 0 "train" 0))
    by (vm_compute; reflexivity).
  split; [exact Hlong|].
  destruct (@n_frames_not_capped Z args27 long_video "A"%string
              (video 301 0 "train" 0)) as [Hall Hcap].
  - repeat constructor; simpl; intuition discriminate.
  - reflexivity.
  - left. reflexivity.
  - split; [exact Hall | exact (Hcap Hlong)].
Defined.

(** ** Degenerate datasets *)

(** When no video has two frames the temporal edge list of the template
    is empty, its tensor has a single dimension, and the first slice
    [temporal_edges[:k, :]] raises. *)
Lemma short_dataset_fails (A : Type) (a : args) (dd : Dict.t (VideoData.t A))
    (F_max : Z) :
  Py.max (ISRDataReader.frame_counts dd) = Some F_max ->
  F_max <= 1 ->
  ISRDataReader._build_spatio_temporal_graph a dd = None.
Proof.
  intros Hmax HF.
  unfold ISRDataReader._build_spatio_temporal_graph, STGB.init.
  rewrite Hmax. cbn [bind].
  destruct (STGB.template F_max (n_nodes a) STGB.default_inward_edges)
    as [gc|] eqn:Hgc; [|reflexivity].
  cbn [bind].
  destruct dd as [|[vid data] dd']; [discriminate|].
  cbn [fold_left bind snd].
  assert (Hnone : ISRDataReader.assemble (n_nodes a) gc data = None).
  { destruct (template_fields _ _ _ Hgc) as (_ & _ & _ & _ & _ & Htp & _).
    unfold ISRDataReader.assemble, ISRDataReader.slice_topology.
    rewrite Htp. unfold STGB.temporal_edge_list.
    rewrite (@range_nonpos (F_max - 1)) by lia. cbn [flat_map torch_tensor].
    destruct (_ <? _);
      destruct (slice_rows _ (STGB.spatial_edges gc)); reflexivity. }
  rewrite Hnone. cbn [bind].
  apply (store_loop_none (ISRDataReader.assemble (n_nodes a) gc)).
Qed.

(** C8 at a dataset of a single one-frame video: the template has no
    temporal edge, its temporal tensor is one-dimensional, the slice of
    the video raises and no graph is produced. *)
Theorem one_frame_dataset_fails :
  frame_count (video 1 0 "train" 0) = 1
  /\ (exists gc,
        STGB.init (ISRDataReader.frame_counts one_frame_video)
                  (n_nodes args27) None = Some gc
        /\ STGB.temporal_edges gc = Empty1D
        /\ ISRDataReader.slice_topology gc 1 = None)
  /\ ISRDataReader._build_spatio_temporal_graph args27 one_frame_video = None.
Proof.
  split; [reflexivity|]. split.
  - eexists. split; [reflexivity|]. split; reflexivity.
  - reflexivity.
Qed.

(** A video without frames next to one of 4 frames: the bound of its
    temporal slice is [-N], which counts from the end, so the slice
    holds the temporal edges of all frame pairs but the last. *)
Example zero_frame_video_slices :
  exists gc sp tp,
    STGB.init (ISRDataReader.frame_counts zero_and_four) (n_nodes args27) None
    = Some gc
    /\ ISRDataReader.slice_topology gc (frame_count (video 0 0 "train" 0))
       = Some (sp, tp)
    /\ n_edges sp = 0
    /\ n_edges tp = 2 * 27.
Proof.
  do 3 eexists.
  split; [reflexivity|]. split; [vm_compute; reflexivity|].
  split; reflexivity.
Qed.

(** ** The edges a record keeps *)

(** For a video with at least one frame, in a dataset whose longest
    video has at least two: the record keeps [f * |inward_edges|]
    edges, and the temporal slice of the assembly has [(f - 1) * N]. *)
Lemma edge_slice_counts (A : Type) (a : args) (dd : Dict.t (VideoData.t A))
    (F_max : Z) (vid : string) (data : VideoData.t A) :
  NoDup (Dict.keys dd) ->
  0 < n_nodes a ->
  Py.max (ISRDataReader.frame_counts dd) = Some F_max ->
  2 <= F_max ->
  In (vid, data) dd ->
  1 <= frame_count data ->
  exists gc gd r sp tp,
    STGB.init (ISRDataReader.frame_counts dd) (n_nodes a) None = Some gc
    /\ ISRDataReader._build_spatio_temporal_graph a dd = Some gd
    /\ Dict.get vid gd = Some r
    /\ ISRDataReader.slice_topology gc (frame_count data) = Some (sp, tp)
    /\ GraphRecord.edges r = sp
    /\ n_edges sp
       = frame_count_used data * Py.len STGB.default_inward_edges
    /\ n_edges tp = (frame_count_used data - 1) * n_nodes a.
Proof.
  intros Hkeys HN Hmax HF Hin Hn.
  destruct (@assembled_record _ a dd F_max vid data Hkeys HN Hmax HF Hin Hn)
    as (gc & gd & r & Hinit & Hbuild & Hget & Hslice & Hedges & _).
  do 5 eexists. do 4 (split; [eassumption|]).
  split; [exact Hedges|].
  rewrite n_edges_spatial, n_edges_temporal.
  rewrite !Z.max_r
    by (unfold frame_count_used, ISRDataReader.max_frames; lia).
  split; reflexivity.
Qed.

(** C2 at the video of 2 frames of a dataset whose other video has 4:
    assembly slices [(2 - 1) * 27] temporal edges for it, but the
    record keeps the [2 * 26] spatial edges only, none of which is
    temporal. *)
Theorem record_keeps_spatial_edges_only :
  exists gc gd r sp tp,
    STGB.init (ISRDataReader.frame_counts two_videos) (n_nodes args27) None
    = Some gc
    /\ ISRDataReader.slice_topology gc (frame_count (video 2 0 "train" 0))
       = Some (sp, tp)
    /\ n_edges tp = Z.max 0 (2 - 1) * 27
    /\ ISRDataReader._build_spatio_temporal_graph args27 two_videos = Some gd
    /\ Dict.get "A" gd = Some r
    /\ GraphRecord.edges r = sp
    /\ n_edges (GraphRecord.edges r) = 2 * 26
    /\ n_temporal_edges_in 27 (GraphRecord.edges r) = 0.
Proof.
  do 5 eexists.
  split; [reflexivity|].
  split; [vm_compute; reflexivity|].
  split; [reflexivity|].
  split; [vm_compute; reflexivity|].
  split; [reflexivity|].
  split; [reflexivity|].
  split; reflexivity.
Qed.

(** C3 at the same video: in the [spatio_temporal] mode the edge index
    of its graph is the [edges] field of its record, the 52 spatial
    edges of 2 frames; none of the 27 temporal edges of 2 frames is in
    it. *)
Theorem edge_index_has_no_temporal_edges :
  exists gd r L d,
    temporal_configuration args27 = "spatio_temporal"%string
    /\ ISRDataReader._build_spatio_temporal_graph args27 two_videos = Some gd
    /\ Dict.get "A" gd = Some r
    /\ ISRDataLoader.init 0 args27 gd = Some L
    /\ nth_error (DataLoader.dataset (ISRDataLoader.train_loader L)) 0 = Some d
    /\ Data.edge_index d = GraphRecord.edges r
    /\ Data.edge_index d
       = t_contiguous (STGB.spatial_edge_list 2 27 STGB.default_inward_edges)
    /\ n_temporal_edges_in 27 (Data.edge_index d) = 0
    /\ n_edges (t_contiguous (STGB.temporal_edge_list 2 27)) = 27.
Proof.
  do 4 eexists.
  split; [reflexivity|].
  split; [vm_compute; reflexivity|].
  split; [reflexivity|].
  split; [vm_compute; reflexivity|].
  split; [reflexivity|].
  repeat split; reflexivity.
Qed.

(** ** Loaders *)

Section Loaders.

Variable A : Type.
Variable a0 : A.
Variable a : args.

(** In the [spatio_temporal] mode every graph gets the [edges] of its
    own record. *)
Lemma load_loop_edge_index (l : Dict.t (GraphRecord.t A)) :
  temporal_configuration a = "spatio_temporal"%string ->
  forall e data_list e' data_list',
    fold_left (fun acc item =>
                 state <- acc ;; ISRDataLoader.load_item a0 a state (snd item))
              l (Some (e, data_list)) = Some (e', data_list') ->
    map (@Data.edge_index A) data_list'
    = map (@Data.edge_index A) data_list
      ++ map (fun item => GraphRecord.edges (snd item)) l.
Proof.
  intros Hmode. induction l as [|[k v] l IH]; simpl;
    intros e data_list e' data_list' Hfold.
  - injection Hfold as _ <-. now rewrite app_nil_r.
  - rewrite Hmode in Hfold. cbn [String.eqb Ascii.eqb Bool.eqb bind] in Hfold.
    apply IH in Hfold. rewrite Hfold, map_app, <- app_assoc. reflexivity.
Qed.

Lemma load_data_edge_index (e e' : option (list Z * list Z))
    (dd : Dict.t (GraphRecord.t A)) (shuffle : bool) (L : DataLoader.t A) :
  temporal_configuration a = "spatio_temporal"%string ->
  ISRDataLoader._load_data a0 a e dd shuffle = Some (e', L) ->
  map (@Data.edge_index A) (DataLoader.dataset L)
  = map (fun item => GraphRecord.edges (snd item)) dd.
Proof.
  intros Hmode. unfold ISRDataLoader._load_data.
  destruct (fold_left _ dd _) as [[e1 data_list]|] eqn:Hfold;
    cbn; [|discriminate].
  intros [= _ <-]. cbn.
  now rewrite (load_loop_edge_index _ Hmode _ _ Hfold).
Qed.

(** The tests of the five partitions exclude each other. *)
Lemma partitions_disjoint (v : GraphRecord.t A) :
  (n_partitions_of v <= 1)%nat.
Proof.
  unfold n_partitions_of, partition_tests, ISRDataLoader.is_train,
    ISRDataLoader.is_val, ISRDataLoader.is_test_view.
  cbn [filter].
  destruct (String.eqb_spec (GraphRecord.split v) "train") as [-> | _];
    [cbn; lia|].
  destruct (String.eqb_spec (GraphRecord.split v) "val") as [-> | _];
    [cbn; lia|].
  destruct (String.eqb_spec (GraphRecord.split v) "test") as [_ | _];
    [|cbn; lia].
  destruct (Z.eqb_spec (GraphRecord.view v) 0) as [-> | _]; [cbn; lia|].
  destruct (Z.eqb_spec (GraphRecord.view v) 1) as [-> | _]; [cbn; lia|].
  destruct (Z.eqb_spec (GraphRecord.view v) 2) as [_ | _]; cbn; lia.
Qed.

(** A record whose labels are the expected ones lands in one partition. *)
Lemma partitions_exhaustive (v : GraphRecord.t A) :
  GraphRecord.split v = "train"%string
  \/ GraphRecord.split v = "val"%string
  \/ (GraphRecord.split v = "test"%string /\ 0 <= GraphRecord.view v <= 2) ->
  n_partitions_of v = 1%nat.
Proof.
  unfold n_partitions_of, partition_tests, ISRDataLoader.is_train,
    ISRDataLoader.is_val, ISRDataLoader.is_test_view.
  cbn [filter]. intros [-> | [-> | [-> Hview]]]; try reflexivity.
  assert (Hcases : GraphRecord.view v = 0 \/ GraphRecord.view v = 1
                   \/ GraphRecord.view v = 2) by lia.
  destruct Hcases as [-> | [-> | ->]]; reflexivity.
Qed.

(** Any other record lands in none. *)
Lemma partitions_drop_other_labels (v : GraphRecord.t A) :
  GraphRecord.split v <> "train"%string ->
  GraphRecord.split v <> "val"%string ->
  (GraphRecord.split v <> "test"%string
   \/ GraphRecord.view v < 0 \/ 2 < GraphRecord.view v) ->
  n_partitions_of v = 0%nat.
Proof.
  unfold n_partitions_of, partition_tests, ISRDataLoader.is_train,
    ISRDataLoader.is_val, ISRDataLoader.is_test_view.
  intros Htrain Hval Htest. cbn [filter].
  destruct (String.eqb_spec (GraphRecord.split v) "train"); [tauto|].
  destruct (String.eqb_spec (GraphRecord.split v) "val"); [tauto|].
  destruct (String.eqb_spec (GraphRecord.split v) "test"); [|reflexivity].
  destruct Htest as [Htest | Htest]; [tauto|].
  destruct (Z.eqb_spec (GraphRecord.view v) 0); [lia|].
  destruct (Z.eqb_spec (GraphRecord.view v) 1); [lia|].
  destruct (Z.eqb_spec (GraphRecord.view v) 2); [lia|].
  reflexivity.
Qed.

Lemma partitions_tests (dd : Dict.t (GraphRecord.t A)) :
  partitions dd = map (fun p => Dict.filter p dd) partition_tests.
Proof. reflexivity. Qed.

(** The three test loaders are all built from [test_data[0]]. *)
Lemma test_loaders_from_view_0 (e : option (list Z * list Z))
    (dd : Dict.t (GraphRecord.t A)) (L : ISRDataLoader.t A) :
  ISRDataLoader.build_loaders a0 a e dd = Some L ->
  forall i, (i < 3)%nat ->
    exists e1 e2 l,
      nth_error (ISRDataLoader.test_loader L) i = Some l
      /\ ISRDataLoader._load_data a0 a e1
           (Dict.filter (ISRDataLoader.is_test_view 0) dd) false
         = Some (e2, l).
Proof.
  unfold ISRDataLoader.build_loaders. cbn [ISRDataLoader._split_dataset nth].
  destruct (ISRDataLoader._load_data a0 a e _ true) as [[e1 tr]|];
    cbn [bind]; [|discriminate].
  destruct (ISRDataLoader._load_data a0 a e1 _ false) as [[e2 va]|];
    cbn [bind]; [|discriminate].
  destruct (ISRDataLoader._load_data a0 a e2 _ false) as [[e3 t0]|] eqn:H0;
    cbn [bind]; [|discriminate].
  destruct (ISRDataLoader._load_data a0 a e3 _ false) as [[e4 t1]|] eqn:H1;
    cbn [bind]; [|discriminate].
  destruct (ISRDataLoader._load_data a0 a e4 _ false) as [[e5 t2]|] eqn:H2;
    cbn [bind]; [|discriminate].
  intros [= <-] i Hi. cbn [ISRDataLoader.test_loader].
  destruct i as [|[|[|i]]]; [| | |lia]; cbn [nth_error]; eauto.
Qed.

End Loaders.

(** C7 at one video per partition: the five partitions hold one video
    each, but the three test loaders all hold the video of view 0
    (label 2); the test videos of view 1 and view 2 (labels 3 and 4)
    reach no loader. *)
Theorem test_loaders_all_view_0 :
  exists gd L,
    ISRDataReader._build_spatio_temporal_graph args27 split_videos = Some gd
    /\ ISRDataLoader.init 0 args27 gd = Some L
    /\ map (@Dict.keys _) (partitions gd)
       = [["a"]; ["b"]; ["c"]; ["d"]; ["e"]]%string
    /\ map (@Data.y Z) (DataLoader.dataset (ISRDataLoader.train_loader L)) = [0]
    /\ map (@Data.y Z) (DataLoader.dataset (ISRDataLoader.val_loader L)) = [1]
    /\ map (fun l => map (@Data.y Z) (DataLoader.dataset l))
           (ISRDataLoader.test_loader L)
       = [[2]; [2]; [2]]
    /\ map (fun l => map (@Data.view Z) (DataLoader.dataset l))
           (ISRDataLoader.test_loader L)
       = [[0]; [0]; [0]].
Proof.
  do 2 eexists.
  split; [vm_compute; reflexivity|].
  split; [vm_compute; reflexivity|].
  repeat split; reflexivity.
Qed.

(** ** Videos without a keypoint file *)

Section MapValues.

Variables V W : Type.
Variable h : V -> W.

Lemma map_values_keys (d : Dict.t V) :
  Dict.keys (map_values h d) = Dict.keys d.
Proof. unfold Dict.keys, map_values. rewrite map_map. reflexivity. Qed.

Lemma map_values_get (k : string) (d : Dict.t V) :
  Dict.get k (map_values h d) = option_map h (Dict.get k d).
Proof.
  induction d as [|[k' v] d IH]; simpl; auto.
  destruct (String.eqb k k'); auto.
Qed.

Lemma map_values_set (k : string) (v : V) (d : Dict.t V) :
  Dict.set k (h v) (map_values h d) = map_values h (Dict.set k v d).
Proof.
  induction d as [|[k' v'] d IH]; simpl; auto.
  destruct (String.eqb k k'); simpl; auto. now rewrite IH.
Qed.

End MapValues.

Lemma fold_left_filter_skip (S X : Type) (step : S -> X -> S) (p : X -> bool) :
  (forall s x, p x = false -> step s x = s) ->
  forall (l : list X) (s : S),
    fold_left step (filter p l) s = fold_left step l s.
Proof.
  intros Hskip l. induction l as [|x l IH]; simpl; intros s; auto.
  destruct (p x) eqn:Hp; simpl; auto. now rewrite Hskip.
Qed.

Lemma filter_map_swap (X Y : Type) (g : X -> Y) (p : Y -> bool) (l : list X) :
  filter p (map g l) = map g (filter (fun x => p (g x)) l).
Proof.
  induction l as [|x l IH]; simpl; auto.
  destruct (p (g x)); simpl; now rewrite IH.
Qed.

(** The gloss dictionary of the annotations without [vid] is the gloss
    dictionary of the annotations, without the instances of [vid]. *)
Lemma load_metadata_drop_video (vid : string) (metadata : list metadata_item) :
  ISRDataReader._load_metadata (drop_video vid metadata)
  = map_values (filter (other_video vid))
               (ISRDataReader._load_metadata metadata).
Proof.
  unfold ISRDataReader._load_metadata.
  change (@nil (string * list (string * string * Z)))
    with (map_values (filter (other_video vid))
                     (@nil (string * list (string * string * Z)))) at 1.
  generalize (@nil (string * list (string * string * Z))) as acc.
  induction metadata as [|item metadata IH]; simpl; intros acc; auto.
  rewrite <- IH. f_equal.
  unfold ISRDataReader.extend_gloss. cbn [item_gloss instances].
  rewrite map_values_get, <- map_values_set. f_equal.
  rewrite filter_app, !filter_map_swap.
  destruct (Dict.get (item_gloss item) acc); reflexivity.
Qed.

Section MissingVideo.

Variable A : Type.
Variable a0 : A.
Variable CenterAndScaleNormalize : tensor3 A -> tensor3 A.
Variable store : string -> option (tensor3 A).
Variable a : args.

Let load_entry := ISRDataReader.load_entry a0 CenterAndScaleNormalize store a.

Lemma load_entry_none (labels : Dict.t Z)
    (l : list (string * (string * string * Z))) :
  fold_left (load_entry labels) l None = None.
Proof.
  induction l as [|[g [[v s] c]] l IH]; simpl; auto.
Qed.

(** An entry without a keypoint file leaves the comprehension as it is:
    nothing is inserted and nothing is raised. *)
Lemma load_entry_missing (labels : Dict.t Z)
    (acc : option (Dict.t (VideoData.t A)))
    (gloss vid split : string) (view : Z) :
  store vid = None ->
  load_entry labels acc (gloss, (vid, split, view)) = acc.
Proof.
  intros Hmiss. unfold load_entry, ISRDataReader.load_entry.
  rewrite Hmiss. destruct acc; reflexivity.
Qed.

(** Only videos with a keypoint file get into [data_dict]. *)
Lemma load_pose_data_keys (labels : Dict.t Z)
    (l : list (string * (string * string * Z))) :
  forall d0 d,
    fold_left (load_entry labels) l (Some d0) = Some d ->
    (forall k, In k (Dict.keys d0) -> store k <> None) ->
    forall k, In k (Dict.keys d) -> store k <> None.
Proof.
  induction l as [|[g [[v s] c]] l IH]; simpl; intros d0 d Hfold Hd0.
  - now injection Hfold as <-.
  - destruct (store v) as [kps|] eqn:Hv; [|now apply (IH _ _ Hfold)].
    destruct (Dict.get g labels) as [label|]; cbn [bind] in Hfold;
      [|rewrite load_entry_none in Hfold; discriminate].
    destruct (ISRDataReader._transform_data _ _ _ _) as [pos|];
      cbn [bind] in Hfold;
      [|rewrite load_entry_none in Hfold; discriminate].
    apply (IH _ _ Hfold). intros k Hk.
    apply dict_keys_set in Hk. destruct Hk as [-> | Hk]; [congruence | auto].
Qed.

Lemma enumerate_labels_get (glosses : list string) (g : string) :
  In g glosses ->
  exists i, Dict.get g (ISRDataReader.enumerate_labels glosses) = Some i.
Proof.
  intros Hin. unfold ISRDataReader.enumerate_labels.
  assert (Hsnd : In g (map snd (combine (Py.range (Py.len glosses)) glosses))).
  { assert (Hlen : length (Py.range (Py.len glosses)) = length glosses)
      by (rewrite range_length; unfold Py.len; lia).
    revert Hlen. generalize (Py.range (Py.len glosses)) as idx.
    induction glosses as [|g' glosses IH]; intros [|i idx] Hlen;
      simpl in *; try tauto; try discriminate.
    destruct Hin as [-> | Hin]; [now left | right].
    apply IH; [exact Hin | lia]. }
  revert Hsnd.
  generalize (combine (Py.range (Py.len glosses)) glosses) as l.
  assert (Hgen : forall (l : list (Z * string)) (d0 : Dict.t Z),
             In g (map snd l) \/ (exists i, Dict.get g d0 = Some i) ->
             exists i,
               Dict.get g
                 (fold_left (fun labels iw => Dict.set (snd iw) (fst iw) labels)
                            l d0) = Some i).
  { induction l as [|[i w] l IH]; simpl; intros d0 H.
    - destruct H as [[] | H]. exact H.
    - apply IH. destruct H as [[<- | H] | [j Hj]].
      + right. rewrite dict_get_set, String.eqb_refl. eauto.
      + now left.
      + right. rewrite dict_get_set. destruct (String.eqb g w); eauto. }
  intros l Hl. apply Hgen. now left.
Qed.

Lemma listed_videos_gloss (gloss_dict : Dict.t (list (string * string * Z)))
    (g : string) (i : string * string * Z) :
  In (g, i) (ISRDataReader.listed_videos gloss_dict) ->
  In g (Dict.keys gloss_dict).
Proof.
  unfold ISRDataReader.listed_videos. rewrite in_flat_map.
  intros ([g' l] & Hin & Hmap). apply in_map_iff in Hmap.
  destruct Hmap as (i' & [= <- <-] & _).
  apply in_map_iff. now exists (g', l).
Qed.

(** The comprehension raises only when a keypoint file that exists
    cannot be transformed. *)
Lemma load_pose_data_some (gloss_dict : Dict.t (list (string * string * Z))) :
  (forall g v s c kps,
      In (g, (v, s, c)) (ISRDataReader.listed_videos gloss_dict) ->
      store v = Some kps ->
      ISRDataReader._transform_data a0 CenterAndScaleNormalize a
        (ISRDataReader.first_two_coords kps) <> None) ->
  exists dd,
    ISRDataReader._load_pose_data a0 CenterAndScaleNormalize store a gloss_dict
    = Some dd.
Proof.
  unfold ISRDataReader._load_pose_data.
  set (labels := ISRDataReader.enumerate_labels (Dict.keys gloss_dict)).
  assert (Hlabels : forall g i,
             In (g, i) (ISRDataReader.listed_videos gloss_dict) ->
             exists n, Dict.get g labels = Some n).
  { intros g i Hin. apply enumerate_labels_get.
    eapply listed_videos_gloss. exact Hin. }
  revert Hlabels.
  generalize (ISRDataReader.listed_videos gloss_dict) as l.
  generalize (@nil (string * VideoData.t A)) as d0.
  intros d0 l. revert d0.
  induction l as [|[g [[v s] c]] l IH]; simpl; intros d0 Hlabels Hok; eauto.
  destruct (store v) as [kps|] eqn:Hv.
  - destruct (Hlabels g (v, s, c) (or_introl eq_refl)) as [n ->].
    cbn [bind].
    destruct (ISRDataReader._transform_data _ _ _ _) as [pos|] eqn:Ht;
      [|exfalso; eapply Hok; [left; reflexivity | exact Hv | exact Ht]].
    cbn [bind]. apply IH; intros; [eapply Hlabels | eapply Hok]; eauto.
  - apply IH; intros; [eapply Hlabels | eapply Hok]; eauto.
Qed.

Lemma listed_videos_drop (vid : string)
    (gloss_dict : Dict.t (list (string * string * Z))) :
  ISRDataReader.listed_videos (map_values (filter (other_video vid)) gloss_dict)
  = filter (fun entry => other_video vid (snd entry))
           (ISRDataReader.listed_videos gloss_dict).
Proof.
  unfold ISRDataReader.listed_videos, map_values.
  induction gloss_dict as [|[g l] gd IH]; simpl; auto.
  rewrite filter_app, IH. f_equal.
  now rewrite filter_map_swap.
Qed.

Lemma load_pose_data_drop (vid : string)
    (gloss_dict : Dict.t (list (string * string * Z))) :
  store vid = None ->
  ISRDataReader._load_pose_data a0 CenterAndScaleNormalize store a
    (map_values (filter (other_video vid)) gloss_dict)
  = ISRDataReader._load_pose_data a0 CenterAndScaleNormalize store a
      gloss_dict.
Proof.
  intros Hmiss. unfold ISRDataReader._load_pose_data.
  rewrite map_values_keys, listed_videos_drop.
  apply fold_left_filter_skip.
  intros acc [g [[v s] c]]. unfold other_video. cbn [snd fst].
  destruct (String.eqb_spec v vid) as [-> | _]; [|discriminate].
  intros _. now apply load_entry_missing.
Qed.

Lemma build_graph_keys (dd : Dict.t (VideoData.t A))
    (gd : Dict.t (GraphRecord.t A)) (k : string) :
  ISRDataReader._build_spatio_temporal_graph a dd = Some gd ->
  In k (Dict.keys gd) -> In k (Dict.keys dd).
Proof.
  unfold ISRDataReader._build_spatio_temporal_graph.
  destruct (STGB.init _ _ _) as [gc|]; cbn [bind]; [|discriminate].
  intros Hfold Hk.
  destruct (@store_loop_keys _ _ (ISRDataReader.assemble (n_nodes a) gc)
              dd [] gd Hfold k Hk) as [[] | H].
  exact H.
Qed.

Lemma partition_keys (gd p : Dict.t (GraphRecord.t A)) (k : string) :
  In p (partitions gd) -> In k (Dict.keys p) -> In k (Dict.keys gd).
Proof.
  rewrite partitions_tests. intros Hp Hk.
  apply in_map_iff in Hp. destruct Hp as (q & <- & _).
  eapply dict_keys_filter. exact Hk.
Qed.

End MissingVideo.

(** C9. A video id that has no keypoint file is silently excluded: the
    reader behaves exactly as if the annotations did not list it, the
    loading of the poses raises nothing as long as the files that do
    exist can be transformed, the id is no key of [data_dict], and no
    graph record of that id is in the final mapping or in any
    partition. *)
Theorem missing_video_excluded (A : Type) (a0 : A)
    (CenterAndScaleNormalize : tensor3 A -> tensor3 A)
    (store : string -> option (tensor3 A)) (a : args)
    (metadata : list metadata_item) (vid : string) :
  store vid = None ->
  ISRDataReader.init a0 CenterAndScaleNormalize store a metadata
  = ISRDataReader.init a0 CenterAndScaleNormalize store a
      (drop_video vid metadata)
  /\ ((forall g v s c kps,
         In (g, (v, s, c))
            (ISRDataReader.listed_videos
               (ISRDataReader._load_metadata metadata)) ->
         store v = Some kps ->
         ISRDataReader._transform_data a0 CenterAndScaleNormalize a
           (ISRDataReader.first_two_coords kps) <> None) ->
      exists dd,
        ISRDataReader._load_pose_data a0 CenterAndScaleNormalize store a
          (ISRDataReader._load_metadata metadata) = Some dd)
  /\ (forall dd,
        ISRDataReader._load_pose_data a0 CenterAndScaleNormalize store a
          (ISRDataReader._load_metadata metadata) = Some dd ->
        ~ In vid (Dict.keys dd))
  /\ (forall gd,
        ISRDataReader.init a0 CenterAndScaleNormalize store a metadata
        = Some gd ->
        ~ In vid (Dict.keys gd)
        /\ forall p, In p (partitions gd) -> ~ In vid (Dict.keys p)).
Proof.
  intros Hmiss.
  assert (Hdd : forall dd,
             ISRDataReader._load_pose_data a0 CenterAndScaleNormalize store a
               (ISRDataReader._load_metadata metadata) = Some dd ->
             ~ In vid (Dict.keys dd)).
  { intros dd Hdd Hin.
    refine (@load_pose_data_keys A a0 CenterAndScaleNormalize store a
              _ _ [] dd Hdd _ vid Hin Hmiss).
    intros k []. }
  split; [|split; [|split]].
  - unfold ISRDataReader.init.
    now rewrite load_metadata_drop_video, load_pose_data_drop.
  - apply load_pose_data_some.
  - exact Hdd.
  - intros gd Hgd. unfold ISRDataReader.init in Hgd.
    destruct (ISRDataReader._load_pose_data _ _ _ _ _) as [dd|] eqn:Hload;
      cbn [bind] in Hgd; [|discriminate].
    assert (Hgdk : ~ In vid (Dict.keys gd)).
    { intros Hin. apply (Hdd dd eq_refl).
      eapply build_graph_keys; eassumption. }
    split; [exact Hgdk|].
    intros p Hp Hin. apply Hgdk. eapply partition_keys; eassumption.
Qed.

Lemma missing_video_excluded_witness :
  store_v1 "v2" = None
  /\ ISRDataReader.init 0 (fun t => t) store_v1 args27 metadata_v1_v2
     = ISRDataReader.init 0 (fun t => t) store_v1 args27
         (drop_video "v2" metadata_v1_v2)
  /\ (exists dd,
        ISRDataReader._load_pose_data 0 (fun t => t) store_v1 args27
          (ISRDataReader._load_metadata metadata_v1_v2) = Some dd)
  /\ (forall dd,
        ISRDataReader._load_pose_data 0 (fun t => t) store_v1 args27
          (ISRDataReader._load_metadata metadata_v1_v2) = Some dd ->
        ~ In "v2"%string (Dict.keys dd))
  /\ (forall gd,
        ISRDataReader.init 0 (fun t => t) store_v1 args27 metadata_v1_v2
        = Some gd ->
        ~ In "v2"%string (Dict.keys gd)
        /\ forall p, In p (partitions gd) -> ~ In "v2"%string (Dict.keys p)).
Proof.
  split; [reflexivity|].
  destruct (@missing_video_excluded Z 0 (fun t => t) store_v1 args27
              metadata_v1_v2 "v2"%string eq_refl)
    as (Hsame & Hsome & Hdd & Hgd).
  split; [exact Hsame|]. split; [|split; [exact Hdd | exact Hgd]].
  apply Hsome. intros g v s c kps _ Hstore. unfold store_v1 in Hstore.
  destruct (String.eqb v "v1"); [|discriminate].
  injection Hstore as <-. vm_compute. discriminate.
Defined.

(** The reader on annotations that list [v1] and the missing [v2]: it
    returns the graph of [v1] alone. *)
Example reader_skips_v2 :
  exists gd,
    ISRDataReader.init 0 (fun t => t) store_v1 args27 metadata_v1_v2 = Some gd
    /\ Dict.keys gd = ["v1"%string]
    /\ map (@Dict.keys _) (partitions gd) = [["v1"%string]; []; []; []; []].
Proof.
  eexists. split; [vm_compute; reflexivity|]. split; reflexivity.
Qed.

(** Stride 3 on 10 frames keeps the frames 0, 3, 6 and 9. *)
Example downsample_ten_frames :
  ISRDataReader.downsample_frames 3
    [map (fun i => [i]) (Py.range 10); map (fun i => [- i]) (Py.range 10)]
  = [[[0]; [3]; [6]; [9]]; [[0]; [-3]; [-6]; [-9]]].
Proof. reflexivity. Qed.

(** * Further properties of the code *)

(** ** The edge lists of the template *)

Lemma seq_offset (start len : nat) :
  seq start len = map (fun j => (start + j)%nat) (seq 0 len).
Proof.
  revert start. induction len as [|len IH]; intros start; cbn [seq map].
  - reflexivity.
  - rewrite Nat.add_0_r. f_equal.
    rewrite (IH (S start)), (IH 1%nat), map_map.
    apply map_ext. intros j. lia.
Qed.

Lemma NoDup_map_injective (X Y : Type) (g : X -> Y) (l : list X) :
  (forall a b, g a = g b -> a = b) -> NoDup l -> NoDup (map g l).
Proof.
  intros Hinj. induction 1 as [|a l Ha _ IH]; cbn [map]; constructor; auto.
  intros Hin. apply in_map_iff in Hin. destruct Hin as (b & Hb & Hin).
  apply Hinj in Hb. now subst.
Qed.

Lemma seq_mul_blocks (m n : nat) :
  seq 0 (m * n)
  = flat_map (fun i => map (fun j => (i * n + j)%nat) (seq 0 n)) (seq 0 m).
Proof.
  induction m as [|m IH].
  - reflexivity.
  - rewrite seq_S, flat_map_app. cbn [flat_map]. rewrite app_nil_r, <- IH.
    replace (S m * n)%nat with (m * n + n)%nat by lia.
    rewrite seq_app. cbn [Nat.add]. f_equal. apply seq_offset.
Qed.

Lemma range_mul_blocks (m n : Z) :
  0 <= m -> 0 <= n ->
  Py.range (m * n)
  = flat_map (fun i => map (fun j => i * n + j) (Py.range n)) (Py.range m).
Proof.
  intros Hm Hn. unfold Py.range.
  replace (Z.to_nat (m * n)) with (Z.to_nat m * Z.to_nat n)%nat by nia.
  rewrite seq_mul_blocks.
  induction (seq 0 (Z.to_nat m)) as [|i l IH]; cbn [flat_map map]; auto.
  rewrite map_app, IH. f_equal.
  rewrite !map_map. apply map_ext. intros j. lia.
Qed.

Lemma temporal_edge_list_closed (F N : Z) :
  0 <= N ->
  STGB.temporal_edge_list F N
  = map (fun node => (node, node + N)) (Py.range ((F - 1) * N)).
Proof.
  intros HN. unfold STGB.temporal_edge_list.
  destruct (Z.le_gt_cases (F - 1) 0) as [HF | HF].
  - rewrite (range_nonpos HF), (@range_nonpos ((F - 1) * N)) by nia.
    reflexivity.
  - rewrite range_mul_blocks by lia.
    induction (Py.range (F - 1)) as [|frame l IH]; cbn [flat_map map]; auto.
    rewrite map_app, IH. f_equal.
    rewrite map_map. apply map_ext. intros node. f_equal. lia.
Qed.

(** X1. The temporal edges of the template are, in this order, the
    edges [(a, a + N)] for [a = 0, 1, ..., (F - 1) * N - 1]: every node
    of every frame but the last is joined, once, to the node [N]
    places further. *)
Theorem temporal_edges_are_shifts (F N : Z) :
  0 <= N ->
  STGB.temporal_edge_list F N
  = map (fun node => (node, node + N)) (Py.range ((F - 1) * N))
  /\ NoDup (STGB.temporal_edge_list F N).
Proof.
  intros HN. rewrite (temporal_edge_list_closed F HN). split; [reflexivity|].
  apply NoDup_map_injective.
  - intros a b [= ->]. reflexivity.
  - unfold Py.range. apply NoDup_map_injective.
    + intros a b. apply Nat2Z.inj.
    + apply seq_NoDup.
Qed.

Lemma temporal_edges_are_shifts_witness :
  STGB.temporal_edge_list 3 2
  = map (fun node => (node, node + 2)) (Py.range ((3 - 1) * 2))
  /\ NoDup (STGB.temporal_edge_list 3 2).
Proof. apply (@temporal_edges_are_shifts 3 2). lia. Defined.

(** X2. The template built for [F] frames holds
    [max(0, F) * |inward_edges|] spatial edges and
    [max(0, F - 1) * N] temporal edges. *)
Theorem template_edge_counts (F N : Z) (inward : list (Z * Z)) (gc : STGB.t) :
  STGB.template F N inward = Some gc ->
  Py.len (tensor_rows (STGB.spatial_edges gc)) = Z.max 0 F * Py.len inward
  /\ Py.len (tensor_rows (STGB.temporal_edges gc)) = Z.max 0 (F - 1) * N.
Proof.
  intros Hgc.
  destruct (template_fields _ _ _ Hgc) as (HN & _ & _ & _ & -> & -> & _).
  rewrite !tensor_rows_torch_tensor,
    spatial_edge_list_length, temporal_edge_list_length.
  split; [reflexivity|]. f_equal. lia.
Qed.

Lemma template_edge_counts_witness :
  exists gc,
    STGB.template 4 3 [(1, 0); (2, 1)] = Some gc
    /\ Py.len (tensor_rows (STGB.spatial_edges gc))
       = Z.max 0 4 * Py.len [(1, 0); (2, 1)]
    /\ Py.len (tensor_rows (STGB.temporal_edges gc)) = Z.max 0 (4 - 1) * 3.
Proof.
  eexists. split; [reflexivity|].
  apply (@template_edge_counts 4 3 [(1, 0); (2, 1)]). reflexivity.
Defined.

Lemma spatial_edge_in_frame (F N : Z) (inward : list (Z * Z)) (a b : Z) :
  Forall (fun e => 0 <= fst e < N /\ 0 <= snd e < N) inward ->
  In (a, b) (STGB.spatial_edge_list F N inward) ->
  0 <= a < F * N /\ 0 <= b < F * N
  /\ a / N = b / N /\ In (a mod N, b mod N) inward.
Proof.
  intros Hin Hab. unfold STGB.spatial_edge_list in Hab.
  apply in_flat_map in Hab. destruct Hab as (frame & Hframe & Hab).
  cbv zeta in Hab. apply in_map_iff in Hab.
  destruct Hab as ([e0 e1] & [= <- <-] & He). cbn [fst snd].
  rewrite Forall_forall in Hin. destruct (Hin _ He) as [H0 H1].
  cbn [fst snd] in H0, H1.
  unfold Py.range in Hframe. apply in_map_iff in Hframe.
  destruct Hframe as (k & <- & Hk). apply in_seq in Hk.
  split; [nia|]. split; [nia|].
  rewrite !(Z.add_comm (Z.of_nat k * N)).
  rewrite !Z.div_add, !Z.mod_add, !Z.div_small, !Z.mod_small by lia.
  split; [reflexivity | exact He].
Qed.

(** X3. When the inward edges join nodes of [0 .. N - 1], every spatial
    edge of the template joins two nodes of one frame: both ends are
    node indices below [F * N], they lie in the same frame, and their
    positions in the frame form an inward edge. *)
Theorem spatial_edges_stay_in_frame (F N : Z) (inward : list (Z * Z))
    (a b : Z) :
  Forall (fun e => 0 <= fst e < N /\ 0 <= snd e < N) inward ->
  In (a, b) (STGB.spatial_edge_list F N inward) ->
  0 <= a < F * N /\ 0 <= b < F * N
  /\ a / N = b / N /\ In (a mod N, b mod N) inward.
Proof. apply spatial_edge_in_frame. Qed.

Lemma spatial_edges_stay_in_frame_witness :
  0 <= 29 < 2 * 27 /\ 0 <= 27 < 2 * 27
  /\ 29 / 27 = 27 / 27
  /\ In (29 mod 27, 27 mod 27) STGB.default_inward_edges.
Proof.
  apply (@spatial_edges_stay_in_frame 2 27 STGB.default_inward_edges 29 27).
  - repeat constructor; cbn; lia.
  - vm_compute. tauto.
Defined.

(** ** When the assembly of a dataset succeeds *)

Section StoreLoop.

Variables V W : Type.
Variable f : V -> option W.

Lemma store_loop_total (l : Dict.t V) :
  (forall k v, In (k, v) l -> exists w, f v = Some w) ->
  forall d0, exists d, fold_left (store_step f) l (Some d0) = Some d.
Proof.
  induction l as [|[k v] l IH]; cbn [fold_left]; intros Hall d0; eauto.
  destruct (Hall k v (or_introl eq_refl)) as [w Hw].
  unfold store_step at 2. cbn [bind snd fst]. rewrite Hw. cbn [bind].
  apply IH. intros k' v' Hin. apply (Hall k' v'). now right.
Qed.

Lemma store_loop_inv (l : Dict.t V) :
  forall d0 d, fold_left (store_step f) l (Some d0) = Some d ->
  forall k v, In (k, v) l -> exists w, f v = Some w.
Proof.
  induction l as [|[k0 v0] l IH]; cbn [fold_left]; intros d0 d Hfold k v Hin.
  - destruct Hin.
  - unfold store_step at 2 in Hfold. cbn [bind snd fst] in Hfold.
    destruct (f v0) as [w0|] eqn:Hw0; cbn [bind] in Hfold.
    + destruct Hin as [[= <- <-] | Hin]; eauto.
    + rewrite (store_loop_none f) in Hfold. discriminate.
Qed.

End StoreLoop.

Lemma length_zero_nil (X : Type) (l : list X) : Py.len l = 0 -> l = [].
Proof. destruct l; [reflexivity | unfold Py.len; cbn; lia]. Qed.

Lemma build_needs_temporal_edges (A : Type) (a : args)
    (dd : Dict.t (VideoData.t A)) (F_max : Z) :
  Py.max (ISRDataReader.frame_counts dd) = Some F_max ->
  STGB.temporal_edge_list F_max (n_nodes a) = [] ->
  ISRDataReader._build_spatio_temporal_graph a dd = None.
Proof.
  intros Hmax Hnil.
  unfold ISRDataReader._build_spatio_temporal_graph, STGB.init.
  rewrite Hmax. cbn [bind].
  destruct (STGB.template F_max (n_nodes a) STGB.default_inward_edges)
    as [gc|] eqn:Hgc; [|reflexivity].
  cbn [bind].
  destruct dd as [|[vid data] dd']; [discriminate|].
  cbn [fold_left bind snd].
  assert (Hnone : ISRDataReader.assemble (n_nodes a) gc data = None).
  { destruct (template_fields _ _ _ Hgc) as (_ & _ & _ & _ & _ & Htp & _).
    unfold ISRDataReader.assemble, ISRDataReader.slice_topology.
    rewrite Htp, Hnil. cbn [torch_tensor].
    destruct (_ <? _);
      destruct (slice_rows _ (STGB.spatial_edges gc)); reflexivity. }
  rewrite Hnone. cbn [bind].
  apply (store_loop_none (ISRDataReader.assemble (n_nodes a) gc)).
Qed.

(** X4. The assembly of a dataset returns a graph dictionary exactly
    when the node count is positive and the longest video has at least
    two frames; on an empty dataset, with a node count of 0 or less, or
    when no video has two frames, it raises. *)
Theorem assembly_succeeds_iff (A : Type) (a : args)
    (dd : Dict.t (VideoData.t A)) :
  ISRDataReader._build_spatio_temporal_graph a dd <> None
  <-> 0 < n_nodes a
      /\ exists F_max,
           Py.max (ISRDataReader.frame_counts dd) = Some F_max /\ 2 <= F_max.
Proof.
  split.
  - intros Hsome.
    destruct (Py.max (ISRDataReader.frame_counts dd)) as [F_max|] eqn:Hmax.
    + destruct (Z.le_gt_cases (n_nodes a) 0) as [HN | HN];
        [|destruct (Z.le_gt_cases F_max 1) as [HF | HF]].
      * exfalso. apply Hsome.
        apply (build_needs_temporal_edges a dd Hmax).
        apply length_zero_nil. rewrite temporal_edge_list_length. lia.
      * exfalso. apply Hsome.
        apply (build_needs_temporal_edges a dd Hmax).
        apply length_zero_nil. rewrite temporal_edge_list_length. lia.
      * split; [lia|]. exists F_max. split; [reflexivity | lia].
    + exfalso. apply Hsome.
      unfold ISRDataReader._build_spatio_temporal_graph, STGB.init.
      now rewrite Hmax.
  - intros (HN & F_max & Hmax & HF).
    destruct (@init_some _ a dd F_max HN Hmax) as (gc & Hinit & Hgc).
    rewrite (build_graph_loop a dd Hinit).
    destruct (@store_loop_total _ _ (ISRDataReader.assemble (n_nodes a) gc) dd)
      with (d0 := @nil (string * GraphRecord.t A)) as [gd Hgd].
    + intros vid data _.
      destruct (@slice_topology_total a F_max HN gc (frame_count data) Hgc HF)
        as (sp & tp & Hs).
      eexists. eapply assemble_some. exact Hs.
    + intros Hnone. pose proof (eq_trans (eq_sym Hgd) Hnone) as Heq.
      discriminate Heq.
Qed.

Lemma build_graph_records (A : Type) (a : args) (dd : Dict.t (VideoData.t A))
    (gd : Dict.t (GraphRecord.t A)) :
  NoDup (Dict.keys dd) ->
  ISRDataReader._build_spatio_temporal_graph a dd = Some gd ->
  exists gc,
    STGB.init (ISRDataReader.frame_counts dd) (n_nodes a) None = Some gc
    /\ Dict.keys gd = Dict.keys dd
    /\ (forall vid data,
          In (vid, data) dd ->
          exists r, ISRDataReader.assemble (n_nodes a) gc data = Some r
                    /\ Dict.get vid gd = Some r).
Proof.
  intros Hkeys Hbuild.
  destruct (STGB.init (ISRDataReader.frame_counts dd) (n_nodes a) None)
    as [gc|] eqn:Hinit;
    [|unfold ISRDataReader._build_spatio_temporal_graph in Hbuild;
      rewrite Hinit in Hbuild; discriminate].
  exists gc. split; [reflexivity|].
  rewrite (build_graph_loop a dd Hinit) in Hbuild.
  destruct (@store_loop_some _ _ (ISRDataReader.assemble (n_nodes a) gc) dd)
    with (d0 := @nil (string * GraphRecord.t A))
    as (gd' & Hfold & Hk & Hrec).
  - intros vid data Hin. eapply store_loop_inv; eassumption.
  - exact Hkeys.
  - pose proof (eq_trans (eq_sym Hbuild) Hfold) as Heq.
    cbn [app] in Heq. injection Heq as ->.
    split; [exact Hk|].
    intros vid data Hin. destruct (Hrec vid data Hin) as (r & Hr & Hinr).
    exists r. split; [exact Hr|].
    apply dict_get_in; [now rewrite Hk | exact Hinr].
Qed.

(** X5. The graph dictionary mirrors [data_dict]: it has the same keys
    in the same order, and the record of every video carries the
    video's label, gloss, split and view unchanged, its frame count,
    and its positions flattened by [reshape_nodes]. *)
Theorem graph_dict_mirrors_data_dict (A : Type) (a : args)
    (dd : Dict.t (VideoData.t A)) (gd : Dict.t (GraphRecord.t A)) :
  NoDup (Dict.keys dd) ->
  ISRDataReader._build_spatio_temporal_graph a dd = Some gd ->
  Dict.keys gd = Dict.keys dd
  /\ (forall vid data,
        In (vid, data) dd ->
        exists r,
          Dict.get vid gd = Some r
          /\ GraphRecord.label r = VideoData.label data
          /\ GraphRecord.gloss r = VideoData.gloss data
          /\ GraphRecord.split r = VideoData.split data
          /\ GraphRecord.view r = VideoData.view data
          /\ GraphRecord.n_frames r = frame_count data
          /\ GraphRecord.node_pos r
             = STGB.reshape_nodes (VideoData.node_pos data)).
Proof.
  intros Hkeys Hbuild.
  destruct (build_graph_records a dd Hkeys Hbuild) as (gc & _ & Hk & Hrec).
  split; [exact Hk|].
  intros vid data Hin. destruct (Hrec vid data Hin) as (r & Hr & Hget).
  exists r. split; [exact Hget|].
  unfold ISRDataReader.assemble in Hr.
  destruct (ISRDataReader.slice_topology _ _) as [[sp tp]|]; cbn [bind] in Hr;
    [|discriminate].
  injection Hr as <-. repeat split.
Qed.

Lemma graph_dict_mirrors_data_dict_witness :
  exists gd,
    ISRDataReader._build_spatio_temporal_graph args27 two_videos = Some gd
    /\ Dict.keys gd = Dict.keys two_videos
    /\ (forall vid data,
          In (vid, data) two_videos ->
          exists r,
            Dict.get vid gd = Some r
            /\ GraphRecord.label r = VideoData.label data
            /\ GraphRecord.gloss r = VideoData.gloss data
            /\ GraphRecord.split r = VideoData.split data
            /\ GraphRecord.view r = VideoData.view data
            /\ GraphRecord.n_frames r = frame_count data
            /\ GraphRecord.node_pos r
               = STGB.reshape_nodes (VideoData.node_pos data)).
Proof.
  eexists. split; [vm_compute; reflexivity|].
  apply (@graph_dict_mirrors_data_dict Z args27 two_videos).
  - repeat constructor; simpl; intuition discriminate.
  - vm_compute. reflexivity.
Defined.

(** ** The graph of one video *)

Lemma edge_pairs_t_contiguous (rows : list (Z * Z)) :
  edge_pairs (t_contiguous rows) = rows.
Proof.
  unfold edge_pairs, t_contiguous. cbn [fst snd].
  induction rows as [|[a b] rows IH]; cbn; [reflexivity | now rewrite IH].
Qed.

Lemma frame_count_of_shape (A : Type) (n N : nat) (data : VideoData.t A) :
  has_shape3 2 n N (VideoData.node_pos data) ->
  frame_count data = Z.of_nat n.
Proof.
  unfold frame_count, shape1. intros [Hlen Hall].
  destruct (VideoData.node_pos data) as [|channel t]; [discriminate|].
  inversion Hall as [|? ? [Hn _] _]; subst. reflexivity.
Qed.

(** X6. The graph of a video is well formed: for a dataset of 27 or
    more nodes per frame whose longest video has at least two frames,
    and a video of [n >= 1] frames, the record has [n * N] feature rows
    of width [N], positions for the same [n * N] nodes in 2 rows, and
    every end of every edge is the index of one of these nodes. *)
Theorem record_well_formed (A : Type) (a : args) (dd : Dict.t (VideoData.t A))
    (F_max : Z) (vid : string) (data : VideoData.t A) (n : nat) :
  NoDup (Dict.keys dd) ->
  27 <= n_nodes a ->
  Py.max (ISRDataReader.frame_counts dd) = Some F_max ->
  2 <= F_max ->
  In (vid, data) dd ->
  has_shape3 2 n (Z.to_nat (n_nodes a)) (VideoData.node_pos data) ->
  (1 <= n)%nat ->
  exists gd r,
    ISRDataReader._build_spatio_temporal_graph a dd = Some gd
    /\ Dict.get vid gd = Some r
    /\ has_shape2 (n * Z.to_nat (n_nodes a)) (Z.to_nat (n_nodes a))
                  (GraphRecord.x r)
    /\ has_shape2 2 (n * Z.to_nat (n_nodes a)) (GraphRecord.node_pos r)
    /\ Forall (fun e => 0 <= fst e < Z.of_nat (nrows (GraphRecord.x r))
                        /\ 0 <= snd e < Z.of_nat (nrows (GraphRecord.x r)))
              (edge_pairs (GraphRecord.edges r)).
Proof.
  intros Hkeys HN Hmax HF Hin Hshape Hn.
  pose proof (frame_count_of_shape _ Hshape) as Hcount.
  destruct (@assembled_record _ a dd F_max vid data Hkeys ltac:(lia) Hmax HF
              Hin ltac:(lia))
    as (gc & gd & r & _ & Hbuild & Hget & _ & Hedges & Hx & _).
  destruct (build_graph_records a dd Hkeys Hbuild) as (gc' & _ & _ & Hrec).
  destruct (Hrec vid data Hin) as (r' & Hr' & Hget').
  assert (r' = r) by congruence. subst r'.
  exists gd, r. do 2 (split; [assumption|]).
  assert (Hrows : has_shape2 (n * Z.to_nat (n_nodes a)) (Z.to_nat (n_nodes a))
                    (GraphRecord.x r)).
  { rewrite Hx, Hcount.
    replace (n * Z.to_nat (n_nodes a))%nat
      with (Z.to_nat (Z.of_nat n * n_nodes a)) by nia.
    apply role_rows_shape. }
  split; [exact Hrows|]. split.
  - unfold ISRDataReader.assemble in Hr'.
    destruct (ISRDataReader.slice_topology _ _) as [[sp tp]|];
      cbn [bind] in Hr'; [|discriminate].
    injection Hr' as <-. cbn [GraphRecord.node_pos].
    now apply reshape_nodes_shape.
  - destruct Hrows as [Hrows _]. unfold nrows. rewrite Hrows.
    rewrite Hedges, edge_pairs_t_contiguous. apply Forall_forall.
    intros [s t] Hst. cbn [fst snd].
    destruct (@spatial_edge_in_frame (frame_count_used data) (n_nodes a)
                STGB.default_inward_edges s t) as (Hs & Ht & _).
    + repeat constructor; cbn; lia.
    + exact Hst.
    + unfold frame_count_used, ISRDataReader.max_frames in *. nia.
Qed.

Lemma still_pose_shape (frames : nat) : has_shape3 2 frames 27 (still_pose frames).
Proof.
  unfold still_pose. split; [reflexivity|].
  repeat constructor; try apply repeat_length;
    apply Forall_forall; intros row Hrow;
    apply repeat_spec in Hrow; subst; apply repeat_length.
Qed.

Lemma record_well_formed_witness :
  exists gd r,
    ISRDataReader._build_spatio_temporal_graph args27 long_video = Some gd
    /\ Dict.get "A" gd = Some r
    /\ has_shape2 (301 * Z.to_nat (n_nodes args27)) (Z.to_nat (n_nodes args27))
                  (GraphRecord.x r)
    /\ has_shape2 2 (301 * Z.to_nat (n_nodes args27)) (GraphRecord.node_pos r)
    /\ Forall (fun e => 0 <= fst e < Z.of_nat (nrows (GraphRecord.x r))
                        /\ 0 <= snd e < Z.of_nat (nrows (GraphRecord.x r)))
              (edge_pairs (GraphRecord.edges r)).
Proof.
  apply (@record_well_formed Z args27 long_video 301 "A"%string
           (video 301 0 "train" 0) 301%nat).
  - repeat constructor; simpl; intuition discriminate.
  - vm_compute. discriminate.
  - vm_compute. reflexivity.
  - lia.
  - left. reflexivity.
  - apply still_pose_shape.
  - lia.
Defined.

(** ** The annotation file *)

Section DictKeys.

Variable V : Type.

Lemma dict_keys_set_list (k : string) (v : V) (d : Dict.t V) :
  Dict.keys (Dict.set k v d)
  = if existsb (String.eqb k) (Dict.keys d) then Dict.keys d
    else Dict.keys d ++ [k].
Proof.
  unfold Dict.keys.
  induction d as [|[k' v'] d IH]; cbn [Dict.set map fst existsb app].
  - reflexivity.
  - destruct (String.eqb k k'); cbn [map fst orb]; [reflexivity|].
    rewrite IH. destruct (existsb _ _); reflexivity.
Qed.

Lemma nodup_snoc (l : list string) (k : string) :
  NoDup l -> ~ In k l -> NoDup (l ++ [k]).
Proof.
  induction 1 as [|a l Ha _ IH]; cbn [app]; intros Hk.
  - constructor; [intros [] | constructor].
  - constructor.
    + rewrite in_app_iff. intros [H | [-> | []]]; [tauto|].
      apply Hk. now left.
    + apply IH. intros H. apply Hk. now right.
Qed.

Lemma dict_set_nodup (k : string) (v : V) (d : Dict.t V) :
  NoDup (Dict.keys d) -> NoDup (Dict.keys (Dict.set k v d)).
Proof.
  intros Hnd. rewrite dict_keys_set_list.
  destruct (existsb _ _) eqn:Hex; [exact Hnd|].
  apply nodup_snoc; [exact Hnd|]. intros Hin.
  assert (Htrue : existsb (String.eqb k) (Dict.keys d) = true).
  { apply existsb_exists. exists k. split; [exact Hin|].
    apply String.eqb_refl. }
  congruence.
Qed.

End DictKeys.

Lemma instances_of_absent (g : string) (metadata : list metadata_item) :
  existsb (fun item => String.eqb (item_gloss item) g) metadata = false ->
  instances_of g metadata = [].
Proof.
  unfold instances_of. induction metadata as [|item md IH]; cbn; auto.
  destruct (String.eqb (item_gloss item) g); cbn; [discriminate|]. exact IH.
Qed.

Lemma load_metadata_get_from (g : string) (metadata : list metadata_item) :
  forall d0,
    Dict.get g (fold_left ISRDataReader.extend_gloss metadata d0)
    = if existsb (fun item => String.eqb (item_gloss item) g) metadata
      then Some (match Dict.get g d0 with Some l => l | None => [] end
                 ++ instances_of g metadata)
      else Dict.get g d0.
Proof.
  induction metadata as [|item md IH]; intros d0; cbn [fold_left existsb].
  - reflexivity.
  - rewrite IH.
    assert (Hget : Dict.get g (ISRDataReader.extend_gloss d0 item)
                   = if String.eqb (item_gloss item) g
                     then Some (match Dict.get g d0 with
                                | Some l => l
                                | None => []
                                end
                                ++ map (fun i => (video_id i, instance_split i,
                                                  camera_view i))
                                       (instances item))
                     else Dict.get g d0).
    { unfold ISRDataReader.extend_gloss. rewrite dict_get_set.
      rewrite (String.eqb_sym g).
      destruct (String.eqb_spec (item_gloss item) g) as [-> | _]; reflexivity. }
    rewrite Hget.
    change (instances_of g (item :: md))
      with ((if String.eqb (item_gloss item) g
             then map (fun i => (video_id i, instance_split i, camera_view i))
                      (instances item)
             else []) ++ instances_of g md).
    destruct (String.eqb (item_gloss item) g); cbn [orb app].
    + destruct (existsb _ md) eqn:Hex.
      * now rewrite app_assoc.
      * rewrite (instances_of_absent _ _ Hex), app_nil_r. reflexivity.
    + reflexivity.
Qed.

Lemma load_metadata_keys_from (metadata : list metadata_item) :
  forall d0,
    Dict.keys (fold_left ISRDataReader.extend_gloss metadata d0)
    = fold_left (fun seen g => if existsb (String.eqb g) seen then seen
                               else seen ++ [g])
                (map item_gloss metadata) (Dict.keys d0).
Proof.
  induction metadata as [|item md IH]; intros d0; cbn [fold_left map].
  - reflexivity.
  - rewrite IH. f_equal. unfold ISRDataReader.extend_gloss.
    apply dict_keys_set_list.
Qed.

Lemma load_metadata_keys (metadata : list metadata_item) :
  Dict.keys (ISRDataReader._load_metadata metadata)
  = first_seen (map item_gloss metadata).
Proof. exact (load_metadata_keys_from metadata []). Qed.

Lemma load_metadata_nodup (metadata : list metadata_item) :
  NoDup (Dict.keys (ISRDataReader._load_metadata metadata)).
Proof.
  unfold ISRDataReader._load_metadata.
  assert (Hgen : forall d0 : Dict.t (list (string * string * Z)),
             NoDup (Dict.keys d0) ->
             NoDup (Dict.keys
                      (fold_left ISRDataReader.extend_gloss metadata d0))).
  { induction metadata as [|item md IH]; intros d0 Hd0; cbn [fold_left].
    - exact Hd0.
    - apply IH. unfold ISRDataReader.extend_gloss. now apply dict_set_nodup. }
  apply Hgen. constructor.
Qed.

(** X7. The gloss dictionary merges the entries of the annotation file
    by gloss: its keys are the distinct glosses in the order of their
    first appearance, and the value of a gloss is the list of the
    instances of all its entries, in the order of the file; a gloss that
    no entry has is no key. *)
Theorem load_metadata_merges_by_gloss (metadata : list metadata_item)
    (g : string) :
  Dict.keys (ISRDataReader._load_metadata metadata)
  = first_seen (map item_gloss metadata)
  /\ Dict.get g (ISRDataReader._load_metadata metadata)
     = if existsb (fun item => String.eqb (item_gloss item) g) metadata
       then Some (instances_of g metadata)
       else None.
Proof.
  split.
  - apply load_metadata_keys.
  - apply (load_metadata_get_from g metadata []).
Qed.

Lemma set_loop_get_other (l : list (Z * string)) (g : string) :
  ~ In g (map snd l) ->
  forall d0 : Dict.t Z,
    Dict.get g (fold_left (fun labels iw => Dict.set (snd iw) (fst iw) labels)
                          l d0)
    = Dict.get g d0.
Proof.
  induction l as [|[i w] l IH]; cbn [fold_left map snd fst]; intros Hnot d0.
  - reflexivity.
  - rewrite IH by (intros H; apply Hnot; now right).
    rewrite dict_get_set.
    destruct (String.eqb_spec g w) as [-> | _]; [|reflexivity].
    exfalso. apply Hnot. now left.
Qed.

Lemma enumerate_labels_nth (glosses : list string) (i : nat) :
  NoDup glosses ->
  (i < length glosses)%nat ->
  Dict.get (nth i glosses ""%string) (ISRDataReader.enumerate_labels glosses)
  = Some (Z.of_nat i).
Proof.
  intros Hnd Hi. unfold ISRDataReader.enumerate_labels, Py.range, Py.len.
  rewrite Nat2Z.id.
  assert (Hgen : forall (start : nat) (d0 : Dict.t Z),
             Dict.get (nth i glosses ""%string)
               (fold_left (fun labels iw => Dict.set (snd iw) (fst iw) labels)
                  (combine (map Z.of_nat (seq start (length glosses))) glosses)
                  d0)
             = Some (Z.of_nat (start + i))).
  { revert i Hi. induction Hnd as [|g glosses Hg Hnd IH];
      intros i Hi start d0; cbn [length] in Hi; [lia|].
    cbn [length seq map combine fold_left snd fst].
    destruct i as [|i]; cbn [nth].
    - rewrite set_loop_get_other.
      + rewrite dict_get_set, String.eqb_refl. do 2 f_equal. lia.
      + intros Hin. apply Hg.
        apply in_map_iff in Hin. destruct Hin as ([j w] & <- & Hin).
        apply in_combine_r in Hin. exact Hin.
    - rewrite IH by lia. do 2 f_equal. lia. }
  apply (Hgen 0%nat).
Qed.

(** X8. The label of a gloss is its rank among the glosses in the order
    of their first appearance in the annotation file: the [i]-th key of
    the gloss dictionary is labelled [i]. *)
Theorem labels_rank_glosses (metadata : list metadata_item) (i : nat) :
  (i < length (first_seen (map item_gloss metadata)))%nat ->
  Dict.get (nth i (first_seen (map item_gloss metadata)) ""%string)
           (ISRDataReader.enumerate_labels
              (Dict.keys (ISRDataReader._load_metadata metadata)))
  = Some (Z.of_nat i).
Proof.
  rewrite <- (load_metadata_keys metadata). intros Hi.
  apply enumerate_labels_nth; [apply load_metadata_nodup | exact Hi].
Qed.

Lemma labels_rank_glosses_witness :
  Dict.get (nth 1 (first_seen (map item_gloss metadata_two_glosses)) ""%string)
           (ISRDataReader.enumerate_labels
              (Dict.keys (ISRDataReader._load_metadata metadata_two_glosses)))
  = Some (Z.of_nat 1).
Proof.
  apply (@labels_rank_glosses metadata_two_glosses 1%nat).
  vm_compute. lia.
Defined.

(** ** The dictionary of poses *)

Section DataDict.

Variable A : Type.
Variable a0 : A.
Variable CenterAndScaleNormalize : tensor3 A -> tensor3 A.
Variable store : string -> option (tensor3 A).
Variable a : args.
Variable labels : Dict.t Z.

Let load_entry :=
  ISRDataReader.load_entry a0 CenterAndScaleNormalize store a labels.

Lemma load_entry_step (d0 : Dict.t (VideoData.t A)) (d : Dict.t (VideoData.t A))
    (g v s : string) (c : Z) :
  load_entry (Some d0) (g, (v, s, c)) = Some d ->
  (store v = None /\ d = d0)
  \/ exists kps label node_pos,
       store v = Some kps
       /\ Dict.get g labels = Some label
       /\ ISRDataReader._transform_data a0 CenterAndScaleNormalize a
            (ISRDataReader.first_two_coords kps) = Some node_pos
       /\ d = Dict.set v {| VideoData.label := label;
                            VideoData.gloss := g;
                            VideoData.node_pos := node_pos;
                            VideoData.split := s;
                            VideoData.view := c |} d0.
Proof.
  unfold load_entry, ISRDataReader.load_entry. cbn [bind].
  destruct (store v) as [kps|]; [|intros [= <-]; now left].
  destruct (Dict.get g labels) as [label|]; cbn [bind]; [|discriminate].
  destruct (ISRDataReader._transform_data _ _ _ _) as [node_pos|] eqn:Ht;
    cbn [bind]; [|discriminate].
  intros [= <-]. right. exists kps, label, node_pos. auto.
Qed.

Lemma load_loop_step (l : list (string * (string * string * Z)))
    (e : string * (string * string * Z)) (d0 d : Dict.t (VideoData.t A)) :
  fold_left load_entry (e :: l) (Some d0) = Some d ->
  exists d1, load_entry (Some d0) e = Some d1
             /\ fold_left load_entry l (Some d1) = Some d.
Proof.
  cbn [fold_left]. destruct (load_entry (Some d0) e) as [d1|] eqn:He; eauto.
  intros H. unfold load_entry in H.
  rewrite (load_entry_none a0 CenterAndScaleNormalize store a) in H.
  discriminate.
Qed.

Lemma load_loop_keys (l : list (string * (string * string * Z))) :
  forall d0 d,
    fold_left load_entry l (Some d0) = Some d ->
    NoDup (Dict.keys d0) ->
    NoDup (Dict.keys d)
    /\ forall v,
         In v (Dict.keys d)
         <-> In v (Dict.keys d0)
             \/ ((exists g s c, In (g, (v, s, c)) l) /\ store v <> None).
Proof.
  induction l as [|[g [[v0 s] c]] l IH]; intros d0 d Hfold Hnd.
  - injection Hfold as <-. split; [exact Hnd|].
    intros v. split; [tauto|]. intros [H | [(? & ? & ? & []) _]]. exact H.
  - apply load_loop_step in Hfold. destruct Hfold as (d1 & Hstep & Hfold).
    apply load_entry_step in Hstep.
    destruct Hstep as [[Hmiss ->] | (kps & lb & pos & Hst & _ & _ & ->)].
    + destruct (IH _ _ Hfold Hnd) as [Hnd' Hiff]. split; [exact Hnd'|].
      intros v. rewrite Hiff. split.
      * intros [H | [(g' & s' & c' & Hin) Hv]]; [now left|].
        right. split; [|exact Hv]. exists g', s', c'. now right.
      * intros [H | [(g' & s' & c' & [Heq | Hin]) Hv]]; [now left | |].
        -- injection Heq as _ <- _ _. congruence.
        -- right. split; [|exact Hv]. eauto.
    + destruct (IH _ _ Hfold (dict_set_nodup _ _ _ Hnd)) as [Hnd' Hiff].
      split; [exact Hnd'|].
      intros v. rewrite Hiff, dict_keys_set. split.
      * intros [[-> | H] | [(g' & s' & c' & Hin) Hv]].
        -- right. split; [|congruence]. exists g, s, c. now left.
        -- now left.
        -- right. split; [|exact Hv]. exists g', s', c'. now right.
      * intros [H | [(g' & s' & c' & [Heq | Hin]) Hv]].
        -- left. now right.
        -- injection Heq as _ <- _ _. left. now left.
        -- right. split; [|exact Hv]. eauto.
Qed.

Lemma load_loop_get_other (l : list (string * (string * string * Z)))
    (v : string) :
  (forall g s c, ~ In (g, (v, s, c)) l) ->
  forall d0 d,
    fold_left load_entry l (Some d0) = Some d ->
    Dict.get v d = Dict.get v d0.
Proof.
  induction l as [|[g [[v0 s] c]] l IH]; intros Hnot d0 d Hfold.
  - now injection Hfold as <-.
  - apply load_loop_step in Hfold. destruct Hfold as (d1 & Hstep & Hfold).
    rewrite (IH (fun g' s' c' H => Hnot g' s' c' (or_intror H)) d1 d Hfold).
    apply load_entry_step in Hstep.
    destruct Hstep as [[_ ->] | (kps & lb & pos & _ & _ & _ & ->)];
      [reflexivity|].
    rewrite dict_get_set.
    destruct (String.eqb_spec v v0) as [-> | _]; [|reflexivity].
    exfalso. apply (Hnot g s c). now left.
Qed.

Lemma load_loop_app (l1 l2 : list (string * (string * string * Z)))
    (d0 d : Dict.t (VideoData.t A)) :
  fold_left load_entry (l1 ++ l2) (Some d0) = Some d ->
  exists d1, fold_left load_entry l1 (Some d0) = Some d1
             /\ fold_left load_entry l2 (Some d1) = Some d.
Proof.
  rewrite fold_left_app.
  destruct (fold_left load_entry l1 (Some d0)) as [d1|]; eauto.
  unfold load_entry.
  rewrite (load_entry_none a0 CenterAndScaleNormalize store a). discriminate.
Qed.

Lemma load_loop_last (l1 l2 : list (string * (string * string * Z)))
    (g v s : string) (c : Z) (kps : tensor3 A) (d0 d : Dict.t (VideoData.t A)) :
  fold_left load_entry (l1 ++ (g, (v, s, c)) :: l2) (Some d0) = Some d ->
  (forall g' s' c', ~ In (g', (v, s', c')) l2) ->
  store v = Some kps ->
  exists label node_pos,
    Dict.get g labels = Some label
    /\ ISRDataReader._transform_data a0 CenterAndScaleNormalize a
         (ISRDataReader.first_two_coords kps) = Some node_pos
    /\ Dict.get v d = Some {| VideoData.label := label;
                              VideoData.gloss := g;
                              VideoData.node_pos := node_pos;
                              VideoData.split := s;
                              VideoData.view := c |}.
Proof.
  intros Hfold Hlast Hst.
  apply load_loop_app in Hfold. destruct Hfold as (d1 & _ & Hfold).
  apply load_loop_step in Hfold. destruct Hfold as (d2 & Hstep & Hfold).
  rewrite (@load_loop_get_other l2 v Hlast d2 d Hfold).
  apply load_entry_step in Hstep.
  destruct Hstep as [[Hmiss _] | (kps' & lb & pos & Hst' & Hlb & Hpos & ->)];
    [congruence|].
  assert (kps' = kps) by congruence. subst kps'.
  exists lb, pos. repeat split; try assumption.
  now rewrite dict_get_set, String.eqb_refl.
Qed.

End DataDict.

(** X9. When the poses load, the keys of [data_dict] are exactly the
    listed video ids that have a keypoint file, each of them once. *)
Theorem data_dict_keys (A : Type) (a0 : A)
    (CenterAndScaleNormalize : tensor3 A -> tensor3 A)
    (store : string -> option (tensor3 A)) (a : args)
    (gloss_dict : Dict.t (list (string * string * Z)))
    (dd : Dict.t (VideoData.t A)) :
  ISRDataReader._load_pose_data a0 CenterAndScaleNormalize store a gloss_dict
  = Some dd ->
  NoDup (Dict.keys dd)
  /\ forall v,
       In v (Dict.keys dd)
       <-> (exists g s c,
              In (g, (v, s, c)) (ISRDataReader.listed_videos gloss_dict))
           /\ store v <> None.
Proof.
  unfold ISRDataReader._load_pose_data. intros Hload.
  destruct (@load_loop_keys A a0 CenterAndScaleNormalize store a _ _ [] dd
              Hload (NoDup_nil _)) as [Hnd Hiff].
  split; [exact Hnd|].
  intros v. rewrite Hiff. cbn. tauto.
Qed.

Lemma data_dict_keys_witness :
  exists dd,
    ISRDataReader._load_pose_data 0 (fun t => t) store_v1 args27
      (ISRDataReader._load_metadata metadata_v1_v2) = Some dd
    /\ NoDup (Dict.keys dd)
    /\ forall v,
         In v (Dict.keys dd)
         <-> (exists g s c,
                In (g, (v, s, c))
                   (ISRDataReader.listed_videos
                      (ISRDataReader._load_metadata metadata_v1_v2)))
             /\ store_v1 v <> None.
Proof.
  eexists. split; [vm_compute; reflexivity|].
  apply (@data_dict_keys Z 0 (fun t => t) store_v1 args27
           (ISRDataReader._load_metadata metadata_v1_v2)).
  vm_compute. reflexivity.
Defined.

(** X10. A video id that is listed several times gets one entry of
    [data_dict], that of its last listing: the entry carries the gloss,
    the label of that gloss, the split and the view of the last listing
    of the id, and the transformed keypoints of its file. *)
Theorem last_listing_wins (A : Type) (a0 : A)
    (CenterAndScaleNormalize : tensor3 A -> tensor3 A)
    (store : string -> option (tensor3 A)) (a : args)
    (gloss_dict : Dict.t (list (string * string * Z)))
    (dd : Dict.t (VideoData.t A))
    (before after : list (string * (string * string * Z)))
    (g v s : string) (c : Z) (kps : tensor3 A) :
  ISRDataReader._load_pose_data a0 CenterAndScaleNormalize store a gloss_dict
  = Some dd ->
  ISRDataReader.listed_videos gloss_dict = before ++ (g, (v, s, c)) :: after ->
  (forall g' s' c', ~ In (g', (v, s', c')) after) ->
  store v = Some kps ->
  exists label node_pos,
    Dict.get g (ISRDataReader.enumerate_labels (Dict.keys gloss_dict))
    = Some label
    /\ ISRDataReader._transform_data a0 CenterAndScaleNormalize a
         (ISRDataReader.first_two_coords kps) = Some node_pos
    /\ Dict.get v dd = Some {| VideoData.label := label;
                               VideoData.gloss := g;
                               VideoData.node_pos := node_pos;
                               VideoData.split := s;
                               VideoData.view := c |}.
Proof.
  unfold ISRDataReader._load_pose_data. intros Hload Hlisted.
  rewrite Hlisted in Hload.
  now apply (@load_loop_last A a0 CenterAndScaleNormalize store a _
               before after g v s c kps [] dd Hload).
Qed.

Lemma last_listing_wins_witness :
  exists dd label node_pos,
    ISRDataReader._load_pose_data 0 (fun t => t) store_v1 args27
      (ISRDataReader._load_metadata metadata_v1_twice) = Some dd
    /\ Dict.get "world"
         (ISRDataReader.enumerate_labels
            (Dict.keys (ISRDataReader._load_metadata metadata_v1_twice)))
       = Some label
    /\ ISRDataReader._transform_data 0 (fun t => t) args27
         (ISRDataReader.first_two_coords raw_keypoints) = Some node_pos
    /\ Dict.get "v1" dd = Some {| VideoData.label := label;
                                  VideoData.gloss := "world";
                                  VideoData.node_pos := node_pos;
                                  VideoData.split := "test";
                                  VideoData.view := 2 |}.
Proof.
  destruct (ISRDataReader._load_pose_data 0 (fun t => t) store_v1 args27
              (ISRDataReader._load_metadata metadata_v1_twice))
    as [dd|] eqn:Hload; [|vm_compute in Hload; discriminate].
  destruct (@last_listing_wins Z 0 (fun t => t) store_v1 args27
              (ISRDataReader._load_metadata metadata_v1_twice) dd
              [("hello"%string, ("v1"%string, "train"%string, 0))] []
              "world"%string "v1"%string "test"%string 2 raw_keypoints)
    as (label & node_pos & Hlabel & Hpos & Hget).
  - exact Hload.
  - reflexivity.
  - intros g' s' c' [].
  - reflexivity.
  - exists dd, label, node_pos. auto.
Defined.

Lemma load_loop_all_missing (A : Type) (a0 : A)
    (CenterAndScaleNormalize : tensor3 A -> tensor3 A)
    (store : string -> option (tensor3 A)) (a : args) (labels : Dict.t Z)
    (l : list (string * (string * string * Z))) :
  (forall g v s c, In (g, (v, s, c)) l -> store v = None) ->
  forall acc,
    fold_left (ISRDataReader.load_entry a0 CenterAndScaleNormalize store a
                 labels) l acc
    = acc.
Proof.
  induction l as [|[g [[v s] c]] l IH]; intros Hall acc; cbn [fold_left].
  - reflexivity.
  - rewrite (@load_entry_missing A a0 CenterAndScaleNormalize store a labels
               acc g v s c (Hall g v s c (or_introl eq_refl))).
    apply IH. intros g' v' s' c' Hin. apply (Hall g' v' s' c'). now right.
Qed.

(** X11. When no listed video has a keypoint file (in particular when
    the annotation file lists none), the poses load into an empty
    dictionary and the construction of the reader then raises, for the
    maximum of no frame count. *)
Theorem reader_raises_without_files (A : Type) (a0 : A)
    (CenterAndScaleNormalize : tensor3 A -> tensor3 A)
    (store : string -> option (tensor3 A)) (a : args)
    (metadata : list metadata_item) :
  (forall g v s c,
      In (g, (v, s, c))
         (ISRDataReader.listed_videos (ISRDataReader._load_metadata metadata)) ->
      store v = None) ->
  ISRDataReader._load_pose_data a0 CenterAndScaleNormalize store a
    (ISRDataReader._load_metadata metadata) = Some []
  /\ ISRDataReader.init a0 CenterAndScaleNormalize store a metadata = None.
Proof.
  intros Hall.
  assert (Hload : ISRDataReader._load_pose_data a0 CenterAndScaleNormalize
                    store a (ISRDataReader._load_metadata metadata) = Some []).
  { unfold ISRDataReader._load_pose_data.
    now apply load_loop_all_missing. }
  split; [exact Hload|].
  unfold ISRDataReader.init. rewrite Hload. reflexivity.
Qed.

Lemma reader_raises_without_files_witness :
  ISRDataReader._load_pose_data 0 (fun t => t) empty_store args27
    (ISRDataReader._load_metadata metadata_v1_v2) = Some []
  /\ ISRDataReader.init 0 (fun t => t) empty_store args27 metadata_v1_v2
     = None.
Proof.
  apply (@reader_raises_without_files Z 0 (fun t => t) empty_store args27
           metadata_v1_v2).
  reflexivity.
Defined.

(** ** The transformation of the keypoints *)

Section Traversal.

Variables X Y : Type.


Lemma mapM_fails (f : X -> option Y) (l : list X) (x : X) :
  In x l -> f x = None -> mapM f l = None.
Proof.
  induction l as [|y l IH]; cbn [mapM]; intros Hin Hx; [destruct Hin|].
  destruct Hin as [-> | Hin].
  - now rewrite Hx.
  - destruct (f y); cbn [bind]; [|reflexivity].
    now rewrite (IH Hin Hx).
Qed.

Lemma nth_map_in (g : X -> Y) (l : list X) (i : nat) (dx : X) (dy : Y) :
  (i < length l)%nat -> nth i (map g l) dy = g (nth i l dx).
Proof.
  intros Hi. rewrite nth_indep with (d' := g dx) by now rewrite length_map.
  apply map_nth.
Qed.

End Traversal.

Section Stride.

Variable X : Type.

Lemma nth_stride_from (step : nat) (l : list X) (d : X) :
  (1 <= step)%nat ->
  forall skip i,
    nth i (Py.stride_from skip step l) d = nth (skip + i * step) l d.
Proof.
  intros Hstep. induction l as [|x l IH]; intros skip i.
  - cbn [Py.stride_from]. now destruct i, (skip + _)%nat.
  - cbn [Py.stride_from]. destruct skip as [|skip].
    + destruct i as [|i]; [reflexivity|].
      cbn [nth]. rewrite IH.
      replace (0 + S i * step)%nat with (S (pred step + i * step)) by lia.
      reflexivity.
    + rewrite IH. reflexivity.
Qed.

Lemma length_stride_from (step : nat) (l : list X) :
  (1 <= step)%nat ->
  forall skip,
    length (Py.stride_from skip step l)
    = ((length l + step - 1 - skip) / step)%nat.
Proof.
  intros Hstep. induction l as [|x l IH]; intros skip.
  - cbn [Py.stride_from length]. symmetry. apply Nat.div_small. lia.
  - cbn [Py.stride_from length]. destruct skip as [|skip].
    + cbn [length]. rewrite IH.
      replace (length l + step - 1 - pred step)%nat with (length l) by lia.
      replace (S (length l) + step - 1 - 0)%nat
        with (length l + 1 * step)%nat by lia.
      rewrite Nat.div_add by lia. lia.
    + rewrite IH. f_equal. lia.
Qed.

Lemma in_stride_from (step : nat) (l : list X) (x : X) :
  forall skip, In x (Py.stride_from skip step l) -> In x l.
Proof.
  induction l as [|y l IH]; intros skip; cbn [Py.stride_from]; [tauto|].
  destruct skip as [|skip].
  - intros [-> | H]; [now left | right; eapply IH; exact H].
  - intros H. right. eapply IH. exact H.
Qed.


End Stride.


(** X12. Downsampling keeps every [rate]-th frame, from frame 0 on:
    a pose of [f] frames keeps [ceil(f / rate)] frames, frame [i] of the
    result being frame [i * rate] of the pose; channels and nodes are
    untouched. *)
Theorem downsample_keeps_every_rate_th (A : Type) (rate c f n : nat)
    (t : tensor3 A) :
  (1 <= rate)%nat ->
  has_shape3 c f n t ->
  has_shape3 c ((f + rate - 1) / rate) n (ISRDataReader.downsample_frames rate t)
  /\ forall channel i,
       nth i (nth channel (ISRDataReader.downsample_frames rate t) []) []
       = nth (i * rate) (nth channel t []) [].
Proof.
  intros Hrate [Hc Hall]. unfold ISRDataReader.downsample_frames. split.
  - split; [now rewrite length_map|].
    apply Forall_map. eapply Forall_impl; [|exact Hall].
    intros channel [Hf Hrows]. cbv beta. unfold Py.slice_step. split.
    + rewrite length_stride_from by exact Hrate. rewrite Hf. f_equal. lia.
    + apply Forall_forall. intros row Hrow.
      apply in_stride_from in Hrow. rewrite Forall_forall in Hrows. auto.
  - intros channel i.
    change (@nil (list A)) with (Py.slice_step rate (@nil (list A))) at 1.
    rewrite map_nth. unfold Py.slice_step.
    now rewrite nth_stride_from by exact Hrate.
Qed.

Lemma downsample_keeps_every_rate_th_witness :
  has_shape3 2 ((3 + 3 - 1) / 3) 2 (ISRDataReader.downsample_frames 3 pose_2x3x2)
  /\ forall channel i,
       nth i (nth channel (ISRDataReader.downsample_frames 3 pose_2x3x2) []) []
       = nth (i * 3) (nth channel pose_2x3x2 []) [].
Proof.
  apply (@downsample_keeps_every_rate_th Z 3 2 3 2 pose_2x3x2).
  - lia.
  - exact pose_2x3x2_shape.
Defined.


Section Transform.

Variable A : Type.
Variable a0 : A.
Variable CenterAndScaleNormalize : tensor3 A -> tensor3 A.
Variable a : args.



Lemma select_row_fails (row : list A) :
  (length row < 75)%nat ->
  mapM (nth_error row) ISRDataReader.pose_indexes = None.
Proof.
  intros Hlen. apply mapM_fails with (x := 74%nat).
  - unfold ISRDataReader.pose_indexes. do 26 right. now left.
  - apply nth_error_None. lia.
Qed.


Lemma permute_channels (kps : tensor3 A) :
  ISRDataReader.permute_2_0_1 a0 (ISRDataReader.first_two_coords kps)
  = map (fun c => map (map (fun lm => nth c (firstn 2 lm) a0)) kps)
        [0%nat; 1%nat].
Proof.
  unfold ISRDataReader.permute_2_0_1, ISRDataReader.first_two_coords.
  cbn [seq]. apply map_ext. intros c.
  rewrite map_map. apply map_ext. intros frame. now rewrite map_map.
Qed.


End Transform.




(** X14. A keypoint array with fewer than 75 landmarks and at least one
    frame is rejected: the selection of landmark 74 raises and
    [_transform_data] returns nothing. *)
Theorem transform_data_needs_75_landmarks (A : Type) (a0 : A)
    (CenterAndScaleNormalize : tensor3 A -> tensor3 A) (a : args)
    (kps : tensor3 A) (f L C : nat) :
  has_shape3 f L C kps ->
  (1 <= f)%nat ->
  (L < 75)%nat ->
  ISRDataReader._transform_data a0 CenterAndScaleNormalize a
    (ISRDataReader.first_two_coords kps) = None.
Proof.
  intros [Hf Hall] Hone HL. unfold ISRDataReader._transform_data.
  rewrite permute_channels.
  assert (Hnone : ISRDataReader.pose_select
                    (map (fun c =>
                            map (map (fun lm => nth c (firstn 2 lm) a0)) kps)
                         [0%nat; 1%nat]) = None).
  { destruct kps as [|frame kps']; [cbn in Hf; lia|].
    inversion Hall as [|? ? [HLf _] _]; subst.
    unfold ISRDataReader.pose_select. cbn [map].
    eapply mapM_fails; [left; reflexivity|].
    eapply mapM_fails; [left; reflexivity|].
    apply select_row_fails. now rewrite length_map. }
  rewrite Hnone. reflexivity.
Qed.

Lemma transform_data_needs_75_landmarks_witness :
  ISRDataReader._transform_data 0 (fun t => t) args27
    (ISRDataReader.first_two_coords pose_2x3x2) = None.
Proof.
  apply (@transform_data_needs_75_landmarks Z 0 (fun t => t) args27
           pose_2x3x2 2 3 2).
  - exact pose_2x3x2_shape.
  - lia.
  - lia.
Defined.

(** ** Positions and padding *)

(** X15. The positions that the loader hands on, the transpose of the
    flattened pose, hold one row [[x, y]] per node, frame after frame:
    for a pose of shape [(2, f, N)] they have shape [(f * N, 2)], and
    row [i * N + k] holds the two coordinates of node [k] in frame [i]. *)
Theorem positions_per_node (A : Type) (a0 : A) (f N : nat) (t : tensor3 A) :
  has_shape3 2 f N t ->
  has_shape2 (f * N) 2 (transpose a0 (STGB.reshape_nodes t))
  /\ forall i k,
       (i < f)%nat -> (k < N)%nat ->
       nth (i * N + k) (transpose a0 (STGB.reshape_nodes t)) []
       = [ nth k (nth i (nth 0 t []) []) a0;
           nth k (nth i (nth 1 t []) []) a0 ].
Proof.
  intros [Hlen Hall].
  destruct t as [|ch0 [|ch1 [|ch2 t]]]; try discriminate.
  inversion Hall as [|? ? [Hf0 Hrows0] Hall']; subst.
  inversion Hall' as [|? ? [Hf1 Hrows1] _]; subst.
  unfold transpose, STGB.reshape_nodes, ncols, column. cbn [map hd nth].
  rewrite (length_concat_rows Hrows0). split.
  - split; [now rewrite length_map, length_seq|].
    apply Forall_map, Forall_forall. reflexivity.
  - intros i k Hi Hk.
    assert (Hj : (i * N + k < length ch0 * N)%nat) by nia.
    rewrite nth_map_in with (dx := 0%nat) by now rewrite length_seq.
    rewrite seq_nth by exact Hj. cbn [Nat.add].
    rewrite (nth_concat_rows a0 Hrows0), (nth_concat_rows a0 Hrows1) by lia.
    reflexivity.
Qed.

Lemma positions_per_node_witness :
  has_shape2 (3 * 2) 2 (transpose 0 (STGB.reshape_nodes pose_2x3x2))
  /\ forall i k,
       (i < 3)%nat -> (k < 2)%nat ->
       nth (i * 2 + k) (transpose 0 (STGB.reshape_nodes pose_2x3x2)) []
       = [ nth k (nth i (nth 0 pose_2x3x2 []) []) 0;
           nth k (nth i (nth 1 pose_2x3x2 []) []) 0 ].
Proof. exact (@positions_per_node Z 0 3 2 pose_2x3x2 pose_2x3x2_shape). Defined.

Lemma in_firstn (X : Type) (n : nat) (l : list X) (x : X) :
  In x (firstn n l) -> In x l.
Proof.
  intros H. rewrite <- (firstn_skipn n l). apply in_or_app. now left.
Qed.

(** X16. [add_padding] brings the features and the positions of a
    video to the size of [max_frames] frames: with [M = max_frames * N],
    the features are the first [M] rows of [x] followed by rows of
    zeros up to [M] rows, and every row of the positions is its first
    [M] entries followed by zeros up to [M] entries; a longer video is
    cut, a shorter one is filled. *)
Theorem add_padding_fixed_size (A : Type) (zero : A) (N : Z) (x : matrix)
    (pos_data : tensor2 A) (k : nat) :
  0 <= N ->
  (1 <= k)%nat ->
  has_shape2 k (Z.to_nat N) x ->
  has_shape2 2 k pos_data ->
  ISRDataReader.add_padding zero N x pos_data
  = (firstn (Z.to_nat (ISRDataReader.max_frames * N)) x
       ++ repeat (repeat 0 (Z.to_nat N))
                 (Z.to_nat (ISRDataReader.max_frames * N) - k),
     map (fun row =>
            firstn (Z.to_nat (ISRDataReader.max_frames * N)) row
              ++ repeat zero (Z.to_nat (ISRDataReader.max_frames * N) - k))
         pos_data)
  /\ has_shape2 (Z.to_nat (ISRDataReader.max_frames * N)) (Z.to_nat N)
                (fst (ISRDataReader.add_padding zero N x pos_data))
  /\ has_shape2 2 (Z.to_nat (ISRDataReader.max_frames * N))
                (snd (ISRDataReader.add_padding zero N x pos_data)).
Proof.
  intros HN Hk [Hxl Hxr] [Hpl Hpr].
  set (M := Z.to_nat (ISRDataReader.max_frames * N)).
  assert (HM : Z.of_nat M = ISRDataReader.max_frames * N)
    by (unfold M, ISRDataReader.max_frames; lia).
  assert (Hcx : ncols x = Z.to_nat N).
  { unfold ncols. destruct x as [|row x']; [cbn in Hxl; lia|].
    inversion Hxr; subst. assumption. }
  assert (Hcp : ncols pos_data = k).
  { unfold ncols. destruct pos_data as [|row p']; [discriminate|].
    inversion Hpr; subst. assumption. }
  assert (Heq : ISRDataReader.add_padding zero N x pos_data
                = (firstn M x ++ repeat (repeat 0 (Z.to_nat N)) (M - k),
                   map (fun row => firstn M row ++ repeat zero (M - k))
                       pos_data)).
  { unfold ISRDataReader.add_padding. rewrite Hcx, Hcp, <- HM.
    destruct (Z.leb_spec 0 (Z.of_nat M - Z.of_nat k)) as [Hge | Hlt].
    - replace (Z.to_nat (Z.of_nat M - Z.of_nat k)) with (M - k)%nat by lia.
      rewrite firstn_all2 by lia. f_equal.
      apply map_ext_in. intros row Hrow.
      rewrite Forall_forall in Hpr.
      rewrite firstn_all2 by (rewrite (Hpr _ Hrow); lia). reflexivity.
    - replace (M - k)%nat with 0%nat by lia. cbn [repeat].
      rewrite app_nil_r, slice_to_nonneg, Nat2Z.id by lia. f_equal.
      apply map_ext. intros row.
      now rewrite app_nil_r, slice_to_nonneg, Nat2Z.id by lia. }
  split; [exact Heq|]. rewrite Heq. cbn [fst snd]. split.
  - split.
    + rewrite length_app, length_firstn, repeat_length. lia.
    + apply Forall_app. split.
      * apply Forall_forall. intros row Hrow.
        rewrite Forall_forall in Hxr. apply Hxr.
        eapply in_firstn. exact Hrow.
      * apply Forall_forall. intros row Hrow.
        apply repeat_spec in Hrow. subst. apply repeat_length.
  - split; [now rewrite length_map|].
    apply Forall_map. eapply Forall_impl; [|exact Hpr].
    intros row Hrow. cbv beta in *.
    rewrite length_app, length_firstn, repeat_length, Hrow. lia.
Qed.

Lemma add_padding_fixed_size_witness :
  ISRDataReader.add_padding 0 1 [[1]; [1]] [[5; 6]; [7; 8]]
  = (firstn (Z.to_nat (ISRDataReader.max_frames * 1)) [[1]; [1]]
       ++ repeat (repeat 0 (Z.to_nat 1))
                 (Z.to_nat (ISRDataReader.max_frames * 1) - 2),
     map (fun row =>
            firstn (Z.to_nat (ISRDataReader.max_frames * 1)) row
              ++ repeat 0 (Z.to_nat (ISRDataReader.max_frames * 1) - 2))
         [[5; 6]; [7; 8]])
  /\ has_shape2 (Z.to_nat (ISRDataReader.max_frames * 1)) (Z.to_nat 1)
                (fst (ISRDataReader.add_padding 0 1 [[1]; [1]]
                        [[5; 6]; [7; 8]]))
  /\ has_shape2 2 (Z.to_nat (ISRDataReader.max_frames * 1))
                (snd (ISRDataReader.add_padding 0 1 [[1]; [1]]
                        [[5; 6]; [7; 8]])).
Proof.
  apply (@add_padding_fixed_size Z 0 1 [[1]; [1]] [[5; 6]; [7; 8]] 2%nat).
  - lia.
  - lia.
  - split; [reflexivity | repeat constructor].
  - split; [reflexivity | repeat constructor].
Defined.

(** ** What the loaders hold *)

Section LoadData.

Variable A : Type.
Variable a0 : A.
Variable a : args.

Let step (acc : option (option (list Z * list Z) * list (Data.t A)))
    (item : string * GraphRecord.t A) :=
  state <- acc ;; ISRDataLoader.load_item a0 a state (snd item).

Lemma load_item_own (e : option (list Z * list Z)) (dl : list (Data.t A))
    (v : GraphRecord.t A) :
  temporal_configuration a = "spatio_temporal"%string ->
  ISRDataLoader.load_item a0 a (e, dl) v
  = Some (Some (GraphRecord.edges v),
          dl ++ [graph_of a0 (GraphRecord.edges v) v]).
Proof. intros Hmode. unfold ISRDataLoader.load_item. now rewrite Hmode. Qed.

Lemma load_item_fixed (E : list Z * list Z) (dl : list (Data.t A))
    (v : GraphRecord.t A) :
  String.eqb (temporal_configuration a) "spatio_temporal" = false ->
  ISRDataLoader.load_item a0 a (Some E, dl) v
  = Some (Some E, dl ++ [graph_of a0 E v]).
Proof. intros Hmode. unfold ISRDataLoader.load_item. now rewrite Hmode. Qed.


Lemma load_loop_own (l : Dict.t (GraphRecord.t A)) :
  temporal_configuration a = "spatio_temporal"%string ->
  forall e dl,
  exists e',
    fold_left step l (Some (e, dl))
    = Some (e', dl ++ map (fun item => graph_of a0 (GraphRecord.edges (snd item))
                                                (snd item)) l).
Proof.
  intros Hmode. induction l as [|[k v] l IH]; intros e dl; cbn [fold_left map].
  - exists e. now rewrite app_nil_r.
  - unfold step at 2. cbn [bind snd]. rewrite (load_item_own e dl v Hmode).
    destruct (IH (Some (GraphRecord.edges v))
                 (dl ++ [graph_of a0 (GraphRecord.edges v) v])) as [e' ->].
    exists e'. now rewrite <- app_assoc.
Qed.

Lemma load_loop_fixed (l : Dict.t (GraphRecord.t A)) (E : list Z * list Z) :
  String.eqb (temporal_configuration a) "spatio_temporal" = false ->
  forall dl,
    fold_left step l (Some (Some E, dl))
    = Some (Some E, dl ++ map (fun item => graph_of a0 E (snd item)) l).
Proof.
  intros Hmode. induction l as [|[k v] l IH]; intros dl; cbn [fold_left map].
  - now rewrite app_nil_r.
  - unfold step at 2. cbn [bind snd]. rewrite (load_item_fixed E dl v Hmode).
    rewrite IH. now rewrite <- app_assoc.
Qed.


Lemma load_data_own (e : option (list Z * list Z))
    (dd : Dict.t (GraphRecord.t A)) (shuffle : bool) :
  temporal_configuration a = "spatio_temporal"%string ->
  exists e',
    ISRDataLoader._load_data a0 a e dd shuffle
    = Some (e', loader_of a shuffle
                  (map (fun item => graph_of a0 (GraphRecord.edges (snd item))
                                             (snd item)) dd)).
Proof.
  intros Hmode. unfold ISRDataLoader._load_data.
  destruct (load_loop_own dd Hmode e []) as [e' Hfold].
  unfold step in Hfold. rewrite Hfold. cbn [bind app]. eauto.
Qed.

Lemma load_data_fixed (E : list Z * list Z) (dd : Dict.t (GraphRecord.t A))
    (shuffle : bool) :
  String.eqb (temporal_configuration a) "spatio_temporal" = false ->
  ISRDataLoader._load_data a0 a (Some E) dd shuffle
  = Some (Some E, loader_of a shuffle
                    (map (fun item => graph_of a0 E (snd item)) dd)).
Proof.
  intros Hmode. unfold ISRDataLoader._load_data.
  pose proof (load_loop_fixed dd E Hmode []) as Hfold.
  unfold step in Hfold. rewrite Hfold. reflexivity.
Qed.


End LoadData.

Lemma build_loaders_own (A : Type) (a0 : A) (a : args)
    (e : option (list Z * list Z)) (dd : Dict.t (GraphRecord.t A)) :
  temporal_configuration a = "spatio_temporal"%string ->
  exists L,
    ISRDataLoader.build_loaders a0 a e dd = Some L
    /\ ISRDataLoader.train_loader L
       = loader_of a true
           (map (fun item => graph_of a0 (GraphRecord.edges (snd item))
                                      (snd item))
                (Dict.filter (@ISRDataLoader.is_train A) dd))
    /\ ISRDataLoader.val_loader L
       = loader_of a false
           (map (fun item => graph_of a0 (GraphRecord.edges (snd item))
                                      (snd item))
                (Dict.filter (@ISRDataLoader.is_val A) dd))
    /\ ISRDataLoader.test_loader L
       = repeat
           (loader_of a false
              (map (fun item => graph_of a0 (GraphRecord.edges (snd item))
                                         (snd item))
                   (Dict.filter (@ISRDataLoader.is_test_view A 0) dd)))
           3.
Proof.
  intros Hmode. unfold ISRDataLoader.build_loaders.
  cbn [ISRDataLoader._split_dataset nth].
  destruct (load_data_own a0 a e
              (Dict.filter (@ISRDataLoader.is_train A) dd) true Hmode)
    as [e1 ->]. cbn [bind].
  destruct (load_data_own a0 a e1
              (Dict.filter (@ISRDataLoader.is_val A) dd) false Hmode)
    as [e2 ->]. cbn [bind].
  destruct (load_data_own a0 a e2
              (Dict.filter (@ISRDataLoader.is_test_view A 0) dd) false Hmode)
    as [e3 ->]. cbn [bind].
  destruct (load_data_own a0 a e3
              (Dict.filter (@ISRDataLoader.is_test_view A 0) dd) false Hmode)
    as [e4 ->]. cbn [bind].
  destruct (load_data_own a0 a e4
              (Dict.filter (@ISRDataLoader.is_test_view A 0) dd) false Hmode)
    as [e5 ->]. cbn [bind].
  eexists. split; [reflexivity|]. repeat split.
Qed.

Lemma build_loaders_fixed (A : Type) (a0 : A) (a : args)
    (E : list Z * list Z) (dd : Dict.t (GraphRecord.t A)) :
  String.eqb (temporal_configuration a) "spatio_temporal" = false ->
  ISRDataLoader.build_loaders a0 a (Some E) dd
  = Some
      {| ISRDataLoader.edge_index := Some E;
         ISRDataLoader.train_loader :=
           loader_of a true
             (map (fun item => graph_of a0 E (snd item))
                  (Dict.filter (@ISRDataLoader.is_train A) dd));
         ISRDataLoader.val_loader :=
           loader_of a false
             (map (fun item => graph_of a0 E (snd item))
                  (Dict.filter (@ISRDataLoader.is_val A) dd));
         ISRDataLoader.test_loader :=
           repeat
             (loader_of a false
                (map (fun item => graph_of a0 E (snd item))
                     (Dict.filter (@ISRDataLoader.is_test_view A 0) dd)))
             3 |}.
Proof.
  intros Hst. unfold ISRDataLoader.build_loaders.
  cbn [ISRDataLoader._split_dataset nth].
  do 5 (rewrite (load_data_fixed a0 a _ _ _ Hst); cbn [bind]).
  reflexivity.
Qed.







(** X22. Building the loaders a second time on the same loader object,
    as the main program does, gives the same train, val and test
    loaders as the first time, in both temporal configurations. *)
Theorem build_loaders_again (A : Type) (a0 : A) (a : args)
    (dd : Dict.t (GraphRecord.t A)) (L : ISRDataLoader.t A) :
  temporal_configuration a = "spatio_temporal"%string
  \/ temporal_configuration a = "per_frame"%string ->
  ISRDataLoader.init a0 a dd = Some L ->
  exists L',
    ISRDataLoader.build_loaders a0 a (ISRDataLoader.edge_index L) dd = Some L'
    /\ ISRDataLoader.train_loader L' = ISRDataLoader.train_loader L
    /\ ISRDataLoader.val_loader L' = ISRDataLoader.val_loader L
    /\ ISRDataLoader.test_loader L' = ISRDataLoader.test_loader L.
Proof.
  intros [Hmode | Hmode] Hinit.
  - unfold ISRDataLoader.init in Hinit.
    destruct (build_loaders_own a0 a
                (if String.eqb (temporal_configuration a) "per_frame"
                 then Some (t_contiguous STGB.default_inward_edges) else None)
                dd Hmode) as (L1 & H1 & Htr & Hva & Hte).
    assert (L1 = L) by congruence. subst L1.
    destruct (build_loaders_own a0 a (ISRDataLoader.edge_index L) dd Hmode)
      as (L' & H' & Htr' & Hva' & Hte').
    exists L'. split; [exact H'|]. repeat split; congruence.
  - unfold ISRDataLoader.init in Hinit.
    assert (Hst : String.eqb (temporal_configuration a) "spatio_temporal"
                  = false) by now rewrite Hmode.
    assert (Hpf : String.eqb (temporal_configuration a) "per_frame" = true)
      by now rewrite Hmode.
    rewrite Hpf, (build_loaders_fixed a0 a _ dd Hst) in Hinit.
    injection Hinit as <-. cbn [ISRDataLoader.edge_index].
    eexists. split; [apply (build_loaders_fixed a0 a _ dd Hst)|].
    repeat split.
Qed.

Lemma build_loaders_again_witness :
  exists L L',
    ISRDataLoader.init 0 args27 bare_records = Some L
    /\ ISRDataLoader.build_loaders 0 args27 (ISRDataLoader.edge_index L)
         bare_records = Some L'
    /\ ISRDataLoader.train_loader L' = ISRDataLoader.train_loader L
    /\ ISRDataLoader.val_loader L' = ISRDataLoader.val_loader L
    /\ ISRDataLoader.test_loader L' = ISRDataLoader.test_loader L.
Proof.
  eexists.
  destruct (@build_loaders_again Z 0 args27 bare_records _
              (or_introl eq_refl) eq_refl) as (L' & H).
  exists L'. split; [reflexivity | exact H].
Defined.

(** ** The partitions as dictionaries *)

Lemma dict_get_some_in (V : Type) (k : string) (v : V) (d : Dict.t V) :
  Dict.get k d = Some v -> In (k, v) d.
Proof.
  induction d as [|[k' v'] d IH]; cbn [Dict.get]; [discriminate|].
  destruct (String.eqb_spec k k') as [-> | _].
  - intros [= ->]. now left.
  - intros H. right. now apply IH.
Qed.

Lemma dict_key_value (V : Type) (k : string) (d : Dict.t V) :
  In k (Dict.keys d) -> exists v, In (k, v) d.
Proof.
  unfold Dict.keys. rewrite in_map_iff. intros ([k' v] & Hk & Hin).
  cbn in Hk. subst. eauto.
Qed.

Lemma dict_value_unique (V : Type) (k : string) (v w : V) (d : Dict.t V) :
  NoDup (Dict.keys d) -> In (k, v) d -> In (k, w) d -> v = w.
Proof.
  intros Hnd Hv Hw.
  apply (dict_get_in _ _ _ Hnd) in Hv. apply (dict_get_in _ _ _ Hnd) in Hw.
  congruence.
Qed.

(** X20. The five partitions are sub-dictionaries of the graph
    dictionary that share no key: a lookup in a partition gives the
    record that the dictionary has under this key, and no video id is a
    key of two of the partitions. *)
Theorem partitions_are_disjoint_subdicts (A : Type)
    (dd : Dict.t (GraphRecord.t A)) :
  NoDup (Dict.keys dd) ->
  (forall p k v,
      In p (partitions dd) -> Dict.get k p = Some v -> Dict.get k dd = Some v)
  /\ (forall i j k,
        (i < 5)%nat -> (j < 5)%nat ->
        In k (Dict.keys (nth i (partitions dd) [])) ->
        In k (Dict.keys (nth j (partitions dd) [])) ->
        i = j).
Proof.
  intros Hnd. split.
  - intros p k v Hp Hget. rewrite partitions_tests in Hp.
    apply in_map_iff in Hp. destruct Hp as (q & <- & _).
    apply dict_get_some_in in Hget. unfold Dict.filter in Hget.
    apply filter_In in Hget. apply dict_get_in; tauto.
  - assert (Hin : forall i k,
               (i < 5)%nat ->
               In k (Dict.keys (nth i (partitions dd) [])) ->
               exists v, In (k, v) dd
                         /\ nth i partition_tests (fun _ => false) v = true).
    { intros i k Hi Hk. rewrite partitions_tests in Hk.
      rewrite nth_map_in with (dx := fun _ : GraphRecord.t A => false) in Hk
        by exact Hi.
      apply dict_key_value in Hk.
      destruct Hk as [v Hv]. unfold Dict.filter in Hv.
      apply filter_In in Hv. exists v. exact Hv. }
    intros i j k Hi Hj Hki Hkj.
    destruct (Hin i k Hi Hki) as (v & Hv & Hti).
    destruct (Hin j k Hj Hkj) as (w & Hw & Htj).
    assert (w = v) by (eapply dict_value_unique; eassumption). subst w.
    pose proof (partitions_disjoint v) as Hone.
    unfold n_partitions_of, partition_tests in Hone, Hti, Htj.
    cbn [filter] in Hone.
    destruct i as [|[|[|[|[|i]]]]]; try lia;
      destruct j as [|[|[|[|[|j]]]]]; try lia; try reflexivity;
      cbn [nth] in Hti, Htj; rewrite Hti, Htj in Hone;
      repeat match type of Hone with
             | context [if ?b then _ else _] => destruct b
             end;
      cbn [length] in Hone; lia.
Qed.

Lemma partitions_are_disjoint_subdicts_witness :
  (forall p k v,
      In p (partitions bare_records) ->
      Dict.get k p = Some v -> Dict.get k bare_records = Some v)
  /\ (forall i j k,
        (i < 5)%nat -> (j < 5)%nat ->
        In k (Dict.keys (nth i (partitions bare_records) [])) ->
        In k (Dict.keys (nth j (partitions bare_records) [])) ->
        i = j).
Proof.
  apply (@partitions_are_disjoint_subdicts Z bare_records).
  repeat constructor; simpl; intuition discriminate.
Defined.

(** ** The reader as a whole *)

(** X21. When the reader is constructed, its dictionary of graphs holds
    exactly the listed video ids that have a keypoint file, each of
    them once. *)
Theorem reader_keeps_videos_with_files (A : Type) (a0 : A)
    (CenterAndScaleNormalize : tensor3 A -> tensor3 A)
    (store : string -> option (tensor3 A)) (a : args)
    (metadata : list metadata_item) (gd : Dict.t (GraphRecord.t A)) :
  ISRDataReader.init a0 CenterAndScaleNormalize store a metadata = Some gd ->
  NoDup (Dict.keys gd)
  /\ forall v,
       In v (Dict.keys gd)
       <-> (exists g s c,
              In (g, (v, s, c))
                 (ISRDataReader.listed_videos
                    (ISRDataReader._load_metadata metadata)))
           /\ store v <> None.
Proof.
  unfold ISRDataReader.init. intros Hinit.
  destruct (ISRDataReader._load_pose_data a0 CenterAndScaleNormalize store a
              (ISRDataReader._load_metadata metadata)) as [dd|] eqn:Hload;
    cbn [bind] in Hinit; [|discriminate].
  unfold ISRDataReader._load_pose_data in Hload.
  destruct (@load_loop_keys A a0 CenterAndScaleNormalize store a _ _ [] dd
              Hload (NoDup_nil _)) as [Hnd Hiff].
  destruct (build_graph_records a dd Hnd Hinit) as (_ & _ & Hk & _).
  rewrite Hk. split; [exact Hnd|].
  intros v. rewrite Hiff. cbn. tauto.
Qed.

Lemma reader_keeps_videos_with_files_witness :
  exists gd,
    ISRDataReader.init 0 (fun t => t) store_v1 args27 metadata_v1_v2 = Some gd
    /\ NoDup (Dict.keys gd)
    /\ forall v,
         In v (Dict.keys gd)
         <-> (exists g s c,
                In (g, (v, s, c))
                   (ISRDataReader.listed_videos
                      (ISRDataReader._load_metadata metadata_v1_v2)))
             /\ store_v1 v <> None.
Proof.
  eexists. split; [vm_compute; reflexivity|].
  apply (@reader_keeps_videos_with_files Z 0 (fun t => t) store_v1 args27
           metadata_v1_v2).
  vm_compute. reflexivity.
Defined.
